(** * scripts/download_models.py: the download / skip decision and the model filter

    A shallow embedding of the script: the catalogue types it imports from
    [ai_diffusion.resources], the file system and the HTTP server it talks to,
    the coroutines [download] and [main], and the [__main__] block that calls
    [main] with the parsed command line.  Effects (file system updates, HTTP
    requests, printed lines, raised exceptions) are made explicit in a small
    monad that records every observable action in order. *)

From Stdlib Require Import ZArith String Ascii List Bool Lia.
From Stdlib.Init Require Import Byte.
From stdpp Require Import base option list gmap strings.

Open Scope Z_scope.
Open Scope string_scope.
Open Scope list_scope.

(** ** Data imported from [ai_diffusion.resources] *)

(** Modelled from the spec: the enumeration [resources.ResourceKind] is not in
    the script; the spec gives kind: enum{checkpoint, controlnet, upscaler,
    preprocessor, other}. *)
Inductive ResourceKind : Set :=
  | checkpoint | controlnet | upscaler | preprocessor | other_kind.

(** Modelled from the spec: the enumeration [resources.SDVersion] is not in
    the script; the spec gives model_family: enum{family_A, family_B,
    unspecified}, the two families being the script's [sd15] and [sdxl]. *)
Inductive SDVersion : Set :=
  | sd15 | sdxl | unspecified.

(** A path is its list of components, relative to the working directory;
    [[]] is the working directory itself. *)
Abbreviation Path := (list string).

(** Modelled from the spec: [resources.ModelResource] is
    { name; kind; model_family; files: ordered mapping from relative
    destination path to source URL }.  The script reads [name], [kind],
    [sd_version] and [files.items()]. *)
Record ModelResource : Set := {
  name : string;
  kind : ResourceKind;
  sd_version : SDVersion;
  files : list (Path * string)
}.

#[global] Instance ResourceKind_eq_dec : EqDecision ResourceKind.
Proof. solve_decision. Defined.
#[global] Instance SDVersion_eq_dec : EqDecision SDVersion.
Proof. solve_decision. Defined.
#[global] Instance ModelResource_eq_dec : EqDecision ModelResource.
Proof. solve_decision. Defined.

(** The tables of [ai_diffusion.resources] the script reads, and
    [ai_diffusion.__version__]; their contents are not part of the script and
    stay a parameter. *)
Module resources.
Record t : Set := {
  version : string;
  required_models : list ModelResource;
  default_checkpoints : list ModelResource;
  all_models : list ModelResource
}.
End resources.

(** ** The outside world *)

Inductive exn : Set :=
  | ClientResponseError   (* aiohttp: raise_for_status, too many redirects *)
  | ServerTimeoutError    (* aiohttp: sock_connect / sock_read timeout *)
  | ClientConnectionError (* aiohttp: any other failure of a request or of a body stream *)
  | TypeError
  | ValueError
  | OSError.

(** What the script sees of an [aiohttp.ClientResponse]: whether
    [raise_for_status()] passes, [headers.get("Content-Length")], the chunks
    [content.iter_chunks()] yields and whether the stream ends normally. *)
Record ClientResponse : Set := {
  ok : bool;
  content_length_header : option string;
  chunks : list (list byte);
  stream_ok : bool
}.

Inductive Reply : Set :=
  | Responds (resp : ClientResponse)
  | Fails (e : exn).

Record Server : Set := {
  on_head : string -> Reply;
  on_get : string -> Reply
}.

Inductive Node : Set :=
  | File (data : list byte)
  | Dir.

Abbreviation FS := (gmap Path Node).

Inductive Event : Set :=
  | Print (line : string)
  | HeadRequest (url : string)
  | GetRequest (url : string)
  | Mkdir (p : Path)
  | OpenWrite (p : Path)
  | WriteChunk (p : Path) (chunk : list byte)
  | ProgressBar (desc : string) (total : option Z)
  | ProgressUpdate (n : Z).

#[global] Instance exn_eq_dec : EqDecision exn.
Proof. solve_decision. Defined.
#[global] Instance byte_eq_dec : EqDecision byte := Byte.byte_eq_dec.
#[global] Instance Event_eq_dec : EqDecision Event.
Proof. solve_decision. Defined.

(** ** Effects: events, a file system, exceptions *)

Inductive Result (A : Type) : Type :=
  | Return (a : A)
  | Raise (e : exn).
Arguments Return {A} a.
Arguments Raise {A} e.

Record Outcome (A : Type) : Type := {
  events : list Event;
  fs_after : FS;
  result : Result A
}.
Arguments events {A} o.
Arguments fs_after {A} o.
Arguments result {A} o.

Definition IO (A : Type) : Type := FS -> Outcome A.

Definition io_ret {A} (a : A) : IO A :=
  fun fs => {| events := []; fs_after := fs; result := Return a |}.

Definition io_bind {A B} (k : A -> IO B) (m : IO A) : IO B :=
  fun fs =>
    let o := m fs in
    match result o with
    | Return a =>
        let o' := k a (fs_after o) in
        {| events := events o ++ events o';
           fs_after := fs_after o';
           result := result o' |}
    | Raise e => {| events := events o; fs_after := fs_after o; result := Raise e |}
    end.

#[global] Instance IO_ret : MRet IO := @io_ret.
#[global] Instance IO_bind : MBind IO := @io_bind.

Definition raise {A} (e : exn) : IO A :=
  fun fs => {| events := []; fs_after := fs; result := Raise e |}.

Definition emit (ev : Event) : IO unit :=
  fun fs => {| events := [ev]; fs_after := fs; result := Return tt |}.

Definition get_fs : IO FS :=
  fun fs => {| events := []; fs_after := fs; result := Return fs |}.

Definition put_fs (fs' : FS) : IO unit :=
  fun _ => {| events := []; fs_after := fs'; result := Return tt |}.

Definition print (line : string) : IO unit := emit (Print line).

(** [x is None] *)
Definition is_None {A} (x : option A) : bool :=
  match x with
  | None => true
  | Some _ => false
  end.

Definition when (b : bool) (m : IO unit) : IO unit :=
  if b then m else mret tt.

(** [for x in xs: body(x)], stopping at the first exception. *)
Fixpoint for_each {A} (xs : list A) (body : A -> IO unit) : IO unit :=
  match xs with
  | [] => mret tt
  | x :: rest => body x ;; for_each rest body
  end.

(** ** pathlib *)

Definition newline : string := String (ascii_of_nat 10) EmptyString.

(** [str(path)] *)
Definition path_str (p : Path) : string :=
  match p with
  | [] => "."
  | _ => String.concat "/" p
  end.

(** [path.parent] *)
Definition parent (p : Path) : Path := removelast p.

Definition node_at (fs : FS) (p : Path) : option Node :=
  match p with
  | [] => Some Dir
  | _ => fs !! p
  end.

(** [path.exists()] *)
Definition path_exists (p : Path) : IO bool :=
  fs ← get_fs; mret (bool_decide (is_Some (node_at fs p))).

(** [path.mkdir(exist_ok=True, parents=True)]: every missing directory from
    the working directory down to the path is created; a regular file in the
    way is an error. *)
Fixpoint mkdir_from (base rest : Path) : IO unit :=
  match rest with
  | [] => mret tt
  | c :: rest' =>
      let q := base ++ [c] in
      fs ← get_fs;
      match fs !! q with
      | Some Dir => mkdir_from q rest'
      | Some (File _) => raise OSError
      | None => put_fs (<[q := Dir]> fs) ;; emit (Mkdir q) ;; mkdir_from q rest'
      end
  end.

Definition mkdir_parents (p : Path) : IO unit := mkdir_from [] p.

(** [open(path, "wb")]: creates the file or truncates it. *)
Definition open_wb (p : Path) : IO unit :=
  fs ← get_fs;
  match node_at fs p, node_at fs (parent p) with
  | Some Dir, _ => raise OSError
  | _, Some Dir => put_fs (<[p := File []]> fs) ;; emit (OpenWrite p)
  | _, _ => raise OSError
  end.

(** [fd.write(chunk)] on the file opened at [p]. *)
Definition write (p : Path) (chunk : list byte) : IO unit :=
  fs ← get_fs;
  match fs !! p with
  | Some (File data) => put_fs (<[p := File (data ++ chunk)]> fs) ;; emit (WriteChunk p chunk)
  | _ => raise OSError
  end.

(** The namespace [parser.parse_args()] returns. *)
Module args.
Record t : Set := {
  destination : Path;
  verbose : bool;
  dry_run : bool;
  no_sd15 : bool;
  no_sdxl : bool;
  no_checkpoints : bool;
  no_upscalers : bool;
  no_controlnet : bool;
  prefetch : bool;
  minimal : bool;
  no_head_request : bool
}.
End args.

Section Script.

(** Python's [int()] on a header value; [None] when it raises ValueError. *)
Variable py_int : string -> option Z.

(** The [st_size] the platform reports for a directory. *)
Variable dir_st_size : Z.

Variable server : Server.

Variable catalog : resources.t.

(** [path.stat().st_size] *)
Definition stat_st_size (p : Path) : IO Z :=
  fs ← get_fs;
  match node_at fs p with
  | Some (File data) => mret (Z.of_nat (length data))
  | Some Dir => mret dir_st_size
  | None => raise OSError
  end.

(** [int(content_length)] for a value read with [headers.get]. *)
Definition int_ (content_length : option string) : IO Z :=
  match content_length with
  | None => raise TypeError
  | Some s =>
      match py_int s with
      | Some n => mret n
      | None => raise ValueError
      end
  end.

(** [resp.content_length] of aiohttp: the parsed header, or [None]. *)
Definition resp_content_length (resp : ClientResponse) : IO (option Z) :=
  match content_length_header resp with
  | None => mret None
  | Some s => n ← int_ (Some s); mret (Some n)
  end.

(** [required_models()]:
    chain(resources.required_models, islice(resources.default_checkpoints, 1)) *)
Definition required_models : list ModelResource :=
  resources.required_models catalog ++ take 1 (resources.default_checkpoints catalog).

Definition msg_matches (model : ModelResource) : string :=
  name model +:+ ": Found - Local file size matches server's - skipping".
Definition msg_differs (model : ModelResource) : string :=
  name model +:+ ": Found - Local file size differs from server's - downloading".
Definition msg_head_failed (model : ModelResource) : string :=
  name model +:+ ": HEAD request failed, falling back to GET request".
Definition msg_no_length (model : ModelResource) : string :=
  name model +:+ ": Found - Could not retrieve Content-Length from server - downloading".

(** The closure [is_size_equal] of [download]. *)
Definition is_size_equal (model : ModelResource) (verbose : bool)
    (content_length : option string) (target_file : Path) : IO bool :=
  local_file_size ← stat_st_size target_file;
  n ← int_ content_length;
  if (n =? local_file_size)%Z then
    print (msg_matches model) ;; mret true
  else
    when verbose (print (msg_differs model)) ;; mret false.

(** What one pass over lines 68-83 decides. *)
Inductive Probe : Set :=
  | SkipFile                           (* [continue] *)
  | GoOn (compared_size : bool).

(** The exceptions [except (ClientResponseError, ServerTimeoutError)] takes. *)
Definition caught_by_probe (e : exn) : bool :=
  match e with
  | ClientResponseError | ServerTimeoutError => true
  | _ => false
  end.

(** Lines 71-83: the HEAD request on a client of its own. *)
Definition head_probe (model : ModelResource) (verbose : bool)
    (url : string) (target_file : Path) : IO Probe :=
  emit (HeadRequest url) ;;
  match on_head server url with
  | Fails e =>
      if caught_by_probe e then
        when verbose (print (msg_head_failed model)) ;; mret (GoOn false)
      else raise e
  | Responds resp =>
      if ok resp then
        match content_length_header resp with
        | Some content_length =>
            equal ← is_size_equal model verbose (Some content_length) target_file;
            if equal : bool then mret SkipFile else mret (GoOn true)
        | None => mret (GoOn false)
        end
      else
        when verbose (print (msg_head_failed model)) ;; mret (GoOn false)
  end.

(** Lines 99-103: the [with open(target_file, "wb")] block. *)
Definition write_body (model : ModelResource) (target_file : Path)
    (resp : ClientResponse) : IO unit :=
  open_wb target_file ;;
  total ← resp_content_length resp;
  emit (ProgressBar (name model) total) ;;
  for_each (chunks resp) (fun chunk =>
    write target_file chunk ;;
    emit (ProgressUpdate (Z.of_nat (length chunk)))) ;;
  if stream_ok resp then mret tt else raise ClientConnectionError.

(** Lines 96-103: print the URL and, unless [dry_run], stream the body. *)
Definition fetch (model : ModelResource) (dry_run : bool) (url : string)
    (target_file : Path) (resp : ClientResponse) : IO unit :=
  print ("Downloading " +:+ url) ;;
  if negb dry_run then
    mkdir_parents (parent target_file) ;;
    write_body model target_file resp
  else mret tt.

(** Lines 85-95: the GET request on the shared client and, when the HEAD
    request gave no size, the comparison with the Content-Length of the GET
    response.  [None] stands for [continue], [Some resp] for reaching
    line 96 with the response [resp]. *)
Definition get_check (model : ModelResource) (verbose : bool)
    (url : string) (target_file : Path) (compared_size : bool)
    : IO (option ClientResponse) :=
  emit (GetRequest url) ;;
  match on_get server url with
  | Fails e => raise e
  | Responds resp =>
      if negb (ok resp) then raise ClientResponseError
      else
        found ← path_exists target_file;
        if found && negb compared_size then
          let content_length := content_length_header resp in
          if verbose && is_None content_length then
            print (msg_no_length model) ;; mret (Some resp)
          else
            equal ← is_size_equal model verbose content_length target_file;
            if equal : bool then mret None else mret (Some resp)
        else mret (Some resp)
  end.

(** Lines 64-95: the existence / size check of one [(filepath, url)]. *)
Definition check (model : ModelResource) (destination : Path)
    (verbose no_head_request : bool) (item : Path * string)
    : IO (option ClientResponse) :=
  let '(filepath, url) := item in
  let target_file := destination ++ filepath in
  when verbose (print ("Looking for " +:+ path_str target_file)) ;;
  found ← path_exists target_file;
  probe ← (if found && negb no_head_request
           then head_probe model verbose url target_file
           else mret (GoOn false));
  match probe with
  | SkipFile => mret None
  | GoOn compared_size => get_check model verbose url target_file compared_size
  end.

(** The body of the loop of [download], for one [(filepath, url)]. *)
Definition download_file (model : ModelResource) (destination : Path)
    (verbose dry_run no_head_request : bool) (item : Path * string) : IO unit :=
  decision ← check model destination verbose no_head_request item;
  match decision with
  | None => mret tt
  | Some resp => fetch model dry_run item.2 (destination ++ item.1) resp
  end.

Definition download (model : ModelResource) (destination : Path)
    (verbose dry_run no_head_request : bool) : IO unit :=
  for_each (files model) (download_file model destination verbose dry_run no_head_request).

(** The condition of lines 126-133. *)
Definition excluded (no_sd15 no_sdxl no_upscalers no_checkpoints no_controlnet prefetch : bool)
    (model : ModelResource) : bool :=
  (no_sd15 && bool_decide (sd_version model = sd15))
  || (no_sdxl && bool_decide (sd_version model = sdxl))
  || (no_controlnet && bool_decide (kind model = controlnet))
  || (no_upscalers && bool_decide (kind model = upscaler))
  || (no_checkpoints && bool_decide (kind model = checkpoint))
  || (negb prefetch && bool_decide (kind model = preprocessor)).

(** The models the loop of lines 125-137 does not [continue] over. *)
Fixpoint selected (no_sd15 no_sdxl no_upscalers no_checkpoints no_controlnet prefetch : bool)
    (models : list ModelResource) : list ModelResource :=
  match models with
  | [] => []
  | model :: rest =>
      if excluded no_sd15 no_sdxl no_upscalers no_checkpoints no_controlnet prefetch model
      then selected no_sd15 no_sdxl no_upscalers no_checkpoints no_controlnet prefetch rest
      else model :: selected no_sd15 no_sdxl no_upscalers no_checkpoints no_controlnet prefetch rest
  end.

(** The loop of lines 125-137 over [models]. *)
Fixpoint main_loop (models : list ModelResource) (destination : Path)
    (verbose dry_run no_sd15 no_sdxl no_upscalers no_checkpoints no_controlnet
     prefetch no_head_request : bool) : IO unit :=
  match models with
  | [] => mret tt
  | model :: rest =>
      (if excluded no_sd15 no_sdxl no_upscalers no_checkpoints no_controlnet prefetch model
       then mret tt
       else
         when verbose (print (newline +:+ name model)) ;;
         download model destination verbose dry_run no_head_request) ;;
      main_loop rest destination verbose dry_run no_sd15 no_sdxl no_upscalers
        no_checkpoints no_controlnet prefetch no_head_request
  end.

Definition banner : string :=
  "Generative AI for Krita - Model download - v" +:+ resources.version catalog.

Definition main (destination : Path)
    (verbose dry_run no_sd15 no_sdxl no_upscalers no_checkpoints no_controlnet
     prefetch minimal no_head_request : bool) : IO unit :=
  print banner ;;
  let verbose := verbose || dry_run in
  let models := if minimal then required_models else resources.all_models catalog in
  main_loop models destination verbose dry_run no_sd15 no_sdxl no_upscalers
    no_checkpoints no_controlnet prefetch no_head_request.

(** The [__main__] block after [parse_args]: [no_sdxl] is or-ed with
    [minimal], and [main] is called with ten positional arguments, so that
    its last parameter [no_head_request] keeps its default [False]. *)
Definition __main__ (a : args.t) : IO unit :=
  let no_sdxl := args.no_sdxl a || args.minimal a in
  main (args.destination a) (args.verbose a) (args.dry_run a) (args.no_sd15 a)
    no_sdxl (args.no_upscalers a) (args.no_checkpoints a) (args.no_controlnet a)
    (args.prefetch a) (args.minimal a) false.

End Script.

(** ** Reasoning about [IO] computations *)

(** Every event the computation emits satisfies [φ], from whatever file
    system it starts. *)
Definition emits_only {A} (φ : Event -> Prop) (m : IO A) : Prop :=
  forall fs, Forall φ (events (m fs)).

(** The computation leaves the file system as it found it. *)
Definition keeps_fs {A} (m : IO A) : Prop :=
  forall fs, fs_after (m fs) = fs.

(** The computation changes the file system at most at the paths in [P]. *)
Definition changes_only {A} (P : Path -> Prop) (m : IO A) : Prop :=
  forall fs q, ~ P q -> fs_after (m fs) !! q = fs !! q.

(** The paths strictly below [base] on the way down to [base ++ rest]: the
    directories [mkdir_from base rest] is concerned with. *)
Definition under (base rest q : Path) : Prop :=
  exists l, l <> [] /\ l `prefix_of` rest /\ q = base ++ l.

(** The events that touch the disk or drive the progress bar: all of them
    come from lines 98-103. *)
Definition is_transfer_event (ev : Event) : bool :=
  match ev with
  | Mkdir _ | OpenWrite _ | WriteChunk _ _ | ProgressBar _ _ | ProgressUpdate _ => true
  | Print _ | HeadRequest _ | GetRequest _ => false
  end.

Definition no_transfer (ev : Event) : Prop := is_transfer_event ev = false.


(** ** The exclusion rules, as the specification words them *)

Definition exclusion_applies
    (no_sd15 no_sdxl no_upscalers no_checkpoints no_controlnet prefetch : bool)
    (r : ModelResource) : Prop :=
  (no_sd15 = true /\ sd_version r = sd15)
  \/ (no_sdxl = true /\ sd_version r = sdxl)
  \/ (no_controlnet = true /\ kind r = controlnet)
  \/ (no_upscalers = true /\ kind r = upscaler)
  \/ (no_checkpoints = true /\ kind r = checkpoint)
  \/ (kind r = preprocessor /\ prefetch = false).

(** ** Conditions the claims speak of *)

(** Either no GET request for [url] was sent, or the first one is the last
    thing the computation did and it ended in ClientResponseError. *)
Definition fatal_at {A} (url : string) (o : Outcome A) : Prop :=
  GetRequest url ∉ events o
  \/ (result o = Raise ClientResponseError
      /\ exists l, events o = l ++ [GetRequest url] /\ GetRequest url ∉ l).

Definition fatal_get {A} (url : string) (m : IO A) : Prop :=
  forall fs, fatal_at url (m fs).

(** The HEAD request supplies no size: it was skipped, it failed with an
    exception the script recovers from, it came back with an error status, or
    its response has no Content-Length. *)
Definition probe_gives_no_size (no_head_request : bool) (reply : Reply) : Prop :=
  no_head_request = true
  \/ reply = Fails ClientResponseError
  \/ reply = Fails ServerTimeoutError
  \/ exists resp, reply = Responds resp
                 /\ (ok resp = false \/ content_length_header resp = None).

(** ** A concrete setting for the examples *)

(** [int()] on a string of ASCII decimal digits; anything else is refused. *)
Definition digit_value (c : ascii) : option Z :=
  let n := Z.of_nat (nat_of_ascii c) in
  if (48 <=? n)%Z && (n <=? 57)%Z then Some (n - 48)%Z else None.

Fixpoint decimal_from (acc : Z) (s : string) : option Z :=
  match s with
  | EmptyString => Some acc
  | String c rest =>
      match digit_value c with
      | Some d => decimal_from (10 * acc + d)%Z rest
      | None => None
      end
  end.

Definition decimal (s : string) : option Z :=
  match s with
  | EmptyString => None
  | _ => decimal_from 0 s
  end.

Definition url_x : string := "https://example.org/x.bin".

(** The resource of the scenarios of the specification: one file, x.bin. *)
Definition model_X : ModelResource :=
  {| name := "X"; kind := other_kind; sd_version := unspecified;
     files := [(["x.bin"], url_x)] |}.

Definition controlnet_15 : ModelResource :=
  {| name := "ControlNet"; kind := controlnet; sd_version := sd15; files := [] |}.

Definition checkpoint_15 : ModelResource :=
  {| name := "Checkpoint"; kind := checkpoint; sd_version := sd15; files := [] |}.

Definition checkpoint_xl : ModelResource :=
  {| name := "Checkpoint XL"; kind := checkpoint; sd_version := sdxl; files := [] |}.

Definition catalog_X : resources.t :=
  {| resources.version := "1.0";
     resources.required_models := [model_X];
     resources.default_checkpoints := [checkpoint_15; checkpoint_xl];
     resources.all_models := [model_X; controlnet_15; checkpoint_15; checkpoint_xl] |}.

Definition zeros (n : nat) : list byte := repeat "000"%byte n.

(** A working directory with out/x.bin of [n] bytes. *)
Definition fs_with_x (n : nat) : FS :=
  <[["out"; "x.bin"] := File (zeros n)]> (<[["out"] := Dir]> ∅).

Definition body_x : list (list byte) := [["001"; "002"]; ["003"]]%byte.

Definition response (content_length : option string) : ClientResponse :=
  {| ok := true; content_length_header := content_length;
     chunks := body_x; stream_ok := true |}.

Definition error_response : ClientResponse :=
  {| ok := false; content_length_header := None; chunks := []; stream_ok := true |}.

Definition server_of (head get : Reply) : Server :=
  {| on_head := fun _ => head; on_get := fun _ => get |}.

(** [download_models.py out] with the given flags, the others off. *)
Definition command_line (verbose dry_run minimal no_head_request : bool) : args.t :=
  {| args.destination := ["out"];
     args.verbose := verbose;
     args.dry_run := dry_run;
     args.no_sd15 := false;
     args.no_sdxl := false;
     args.no_checkpoints := false;
     args.no_upscalers := false;
     args.no_controlnet := false;
     args.prefetch := false;
     args.minimal := minimal;
     args.no_head_request := no_head_request |}.

Definition with_no_head_request (b : bool) (a : args.t) : args.t :=
  {| args.destination := args.destination a;
     args.verbose := args.verbose a;
     args.dry_run := args.dry_run a;
     args.no_sd15 := args.no_sd15 a;
     args.no_sdxl := args.no_sdxl a;
     args.no_checkpoints := args.no_checkpoints a;
     args.no_upscalers := args.no_upscalers a;
     args.no_controlnet := args.no_controlnet a;
     args.prefetch := args.prefetch a;
     args.minimal := args.minimal a;
     args.no_head_request := b |}.


(** ** Measures on the events of a run *)

Definition is_request (ev : Event) : bool :=
  match ev with
  | HeadRequest _ | GetRequest _ => true
  | _ => false
  end.

(** The HTTP requests among the events, in the order they were sent. *)
Definition requests (evs : list Event) : list Event := List.filter is_request evs.

Definition is_print (ev : Event) : bool :=
  match ev with
  | Print _ => true
  | _ => false
  end.

(** Everything but the printed lines. *)
Definition actions (evs : list Event) : list Event :=
  List.filter (fun ev => negb (is_print ev)) evs.

(** The bytes the progress bar was advanced by: the sum of [pbar.update(n)]. *)
Fixpoint progress_total (evs : list Event) : Z :=
  match evs with
  | [] => 0
  | ProgressUpdate n :: rest => n + progress_total rest
  | _ :: rest => progress_total rest
  end.

(** The bytes handed to [fd.write]. *)
Fixpoint bytes_written (evs : list Event) : Z :=
  match evs with
  | [] => 0
  | WriteChunk _ chunk :: rest => Z.of_nat (length chunk) + bytes_written rest
  | _ :: rest => bytes_written rest
  end.

(** Two outcomes that differ at most in the lines they printed. *)
Definition same_but_for_prints {A} (o1 o2 : Outcome A) : Prop :=
  actions (events o1) = actions (events o2)
  /\ fs_after o1 = fs_after o2
  /\ result o1 = result o2.


(** A response whose body stream breaks after the chunks of [body_x]. *)
Definition broken_response : ClientResponse :=
  {| ok := true; content_length_header := Some "5";
     chunks := body_x; stream_ok := false |}.





Lemma bind_run {A B} (m : IO A) (k : A -> IO B) fs :
  (m ≫= k) fs =
  match result (m fs) with
  | Return a =>
      {| events := events (m fs) ++ events (k a (fs_after (m fs)));
         fs_after := fs_after (k a (fs_after (m fs)));
         result := result (k a (fs_after (m fs))) |}
  | Raise e =>
      {| events := events (m fs); fs_after := fs_after (m fs); result := Raise e |}
  end.
Proof. reflexivity. Qed.

Section Closure.
Context {A B : Type}.
Variable φ : Event -> Prop.

Lemma emits_only_ret (a : A) : emits_only φ (mret a).
Proof. intros fs. constructor. Qed.

Lemma emits_only_raise e : emits_only φ (raise e : IO A).
Proof. intros fs. constructor. Qed.

Lemma emits_only_get_fs : emits_only φ get_fs.
Proof. intros fs. constructor. Qed.

Lemma emits_only_put_fs fs' : emits_only φ (put_fs fs').
Proof. intros fs. constructor. Qed.

Lemma emits_only_emit ev : φ ev -> emits_only φ (emit ev).
Proof. intros H fs. repeat constructor. exact H. Qed.

Lemma emits_only_bind (m : IO A) (k : A -> IO B) :
  emits_only φ m -> (forall a, emits_only φ (k a)) -> emits_only φ (m ≫= k).
Proof.
  intros Hm Hk fs. rewrite bind_run.
  destruct (result (m fs)); cbn; [apply Forall_app; split; [apply Hm | apply Hk] | apply Hm].
Qed.

Lemma keeps_fs_ret (a : A) : keeps_fs (mret a).
Proof. intros fs. reflexivity. Qed.

Lemma keeps_fs_raise e : keeps_fs (raise e : IO A).
Proof. intros fs. reflexivity. Qed.

Lemma keeps_fs_get_fs : keeps_fs get_fs.
Proof. intros fs. reflexivity. Qed.

Lemma keeps_fs_emit ev : keeps_fs (emit ev).
Proof. intros fs. reflexivity. Qed.

Lemma keeps_fs_bind (m : IO A) (k : A -> IO B) :
  keeps_fs m -> (forall a, keeps_fs (k a)) -> keeps_fs (m ≫= k).
Proof.
  intros Hm Hk fs. rewrite bind_run.
  destruct (result (m fs)); cbn; [rewrite Hk|]; apply Hm.
Qed.
End Closure.

Lemma emits_only_when φ b m : emits_only φ m -> emits_only φ (when b m).
Proof. destruct b; [trivial | intros _; apply emits_only_ret]. Qed.

Lemma keeps_fs_when b m : keeps_fs m -> keeps_fs (when b m).
Proof. destruct b; [trivial | intros _; apply keeps_fs_ret]. Qed.

Lemma emits_only_for_each {A} φ (xs : list A) body :
  (forall x, emits_only φ (body x)) -> emits_only φ (for_each xs body).
Proof.
  intros H. induction xs as [|x xs IH]; cbn [for_each].
  - apply emits_only_ret.
  - apply emits_only_bind; auto.
Qed.

Lemma keeps_fs_for_each {A} (xs : list A) body :
  (forall x, keeps_fs (body x)) -> keeps_fs (for_each xs body).
Proof.
  intros H. induction xs as [|x xs IH]; cbn [for_each].
  - apply keeps_fs_ret.
  - apply keeps_fs_bind; auto.
Qed.

Lemma emits_only_weaken {A} (φ ψ : Event -> Prop) (m : IO A) :
  (forall ev, φ ev -> ψ ev) -> emits_only φ m -> emits_only ψ m.
Proof. intros H Hm fs. eapply Forall_impl; [apply Hm | exact H]. Qed.

(** Splits a goal about a computation along its binds, branches and loops. *)
Ltac io_split :=
  repeat first
    [ progress intros
    | apply emits_only_bind | apply keeps_fs_bind
    | apply emits_only_when | apply keeps_fs_when
    | apply emits_only_for_each | apply keeps_fs_for_each
    | apply emits_only_ret | apply keeps_fs_ret
    | apply emits_only_raise | apply keeps_fs_raise
    | apply emits_only_get_fs | apply keeps_fs_get_fs
    | apply emits_only_put_fs
    | apply keeps_fs_emit
    | apply emits_only_emit
    | case_match ].

Lemma get_fs_bind {B} (k : FS -> IO B) fs : (get_fs ≫= k) fs = k fs fs.
Proof. rewrite bind_run. cbn. destruct (k fs fs); reflexivity. Qed.

Lemma put_fs_bind {B} (k : unit -> IO B) fs' fs : (put_fs fs' ≫= k) fs = k tt fs'.
Proof. rewrite bind_run. cbn. destruct (k tt fs'); reflexivity. Qed.

Lemma emit_bind {B} (k : unit -> IO B) ev fs :
  (emit ev ≫= k) fs
  = {| events := ev :: events (k tt fs);
       fs_after := fs_after (k tt fs);
       result := result (k tt fs) |}.
Proof. reflexivity. Qed.

Section ChangesOnly.
Context {A B : Type}.
Variable P : Path -> Prop.

Lemma changes_only_keeps (m : IO A) : keeps_fs m -> changes_only P m.
Proof. intros H fs q _. rewrite H. reflexivity. Qed.

Lemma changes_only_bind (m : IO A) (k : A -> IO B) :
  changes_only P m -> (forall a, changes_only P (k a)) -> changes_only P (m ≫= k).
Proof.
  intros Hm Hk fs q Hq. rewrite bind_run.
  destruct (result (m fs)); cbn; [rewrite Hk by exact Hq|]; apply Hm, Hq.
Qed.

End ChangesOnly.

Lemma changes_only_for_each {A} P (xs : list A) body :
  (forall x, changes_only P (body x)) -> changes_only P (for_each xs body).
Proof.
  intros H. induction xs as [|x xs IH]; cbn [for_each].
  - apply changes_only_keeps, keeps_fs_ret.
  - apply changes_only_bind; auto.
Qed.

(** ** A request that ends the run *)

Lemma fatal_get_quiet {A} url (m : IO A) :
  emits_only (fun ev => ev <> GetRequest url) m -> fatal_get url m.
Proof.
  intros H fs. left. intros Hin.
  specialize (H fs). rewrite Forall_forall in H. exact (H _ Hin eq_refl).
Qed.

Lemma fatal_get_bind {A B} url (m : IO A) (k : A -> IO B) :
  fatal_get url m -> (forall a, fatal_get url (k a)) -> fatal_get url (m ≫= k).
Proof.
  intros Hm Hk fs. rewrite bind_run.
  destruct (Hm fs) as [Hno | (Hres & l & Hev & Hl)].
  - destruct (result (m fs)) as [a|e]; [|left; exact Hno].
    destruct (Hk a (fs_after (m fs))) as [Hno' | (Hres' & l' & Hev' & Hl')].
    + left. cbn. rewrite elem_of_app. tauto.
    + right. cbn. split; [exact Hres'|].
      exists (events (m fs) ++ l'). rewrite Hev', app_assoc. split; [reflexivity|].
      rewrite elem_of_app. tauto.
  - rewrite Hres. right. cbn. eauto.
Qed.

Lemma fatal_get_for_each {A} url (xs : list A) body :
  (forall x, fatal_get url (body x)) -> fatal_get url (for_each xs body).
Proof.
  intros H. induction xs as [|x xs IH]; cbn [for_each].
  - apply fatal_get_quiet, emits_only_ret.
  - apply fatal_get_bind; auto.
Qed.

(** ** The file system operations *)

Lemma under_cons base c rest q :
  under base (c :: rest) q <-> q = base ++ [c] \/ under (base ++ [c]) rest q.
Proof.
  unfold under. split.
  - intros (l & Hl & Hpre & ->). destruct l as [|c' l']; [done|].
    apply prefix_cons_inv_1 in Hpre as Hc. apply prefix_cons_inv_2 in Hpre as Hl'. subst c'.
    destruct l' as [|x l'']; [left; reflexivity|].
    right. exists (x :: l''). split; [done|]. split; [exact Hl'|].
    rewrite <- app_assoc. reflexivity.
  - intros [-> | (l & Hl & Hpre & ->)].
    + exists [c]. split; [done|]. split; [|reflexivity].
      apply prefix_cons, prefix_nil.
    + exists (c :: l). split; [done|]. split; [apply prefix_cons, Hpre|].
      rewrite <- app_assoc. reflexivity.
Qed.

Lemma under_nil base q : ~ under base [] q.
Proof.
  intros (l & Hl & Hpre & _). apply prefix_nil_inv in Hpre. contradiction.
Qed.

Lemma under_longer base rest q : under base rest q -> (length base < length q)%nat.
Proof.
  intros (l & Hl & _ & ->). rewrite length_app.
  destruct l; [done | cbn; lia].
Qed.

Lemma under_not_base base rest : ~ under base rest base.
Proof. intros H%under_longer. lia. Qed.

Lemma under_root p q : under [] p q <-> q <> [] /\ q `prefix_of` p.
Proof.
  unfold under. cbn. split.
  - intros (l & Hl & Hpre & ->). auto.
  - intros [Hq Hpre]. exists q. auto.
Qed.

Lemma mkdir_from_step base c rest fs :
  mkdir_from base (c :: rest) fs
  = match fs !! (base ++ [c]) with
    | Some Dir => mkdir_from (base ++ [c]) rest fs
    | Some (File _) => {| events := []; fs_after := fs; result := Raise OSError |}
    | None =>
        let o := mkdir_from (base ++ [c]) rest (<[base ++ [c] := Dir]> fs) in
        {| events := Mkdir (base ++ [c]) :: events o;
           fs_after := fs_after o;
           result := result o |}
    end.
Proof.
  cbn [mkdir_from]. rewrite get_fs_bind.
  destruct (fs !! (base ++ [c])) as [[d|]|]; reflexivity.
Qed.

Lemma mkdir_from_frame base rest : changes_only (under base rest) (mkdir_from base rest).
Proof.
  revert base. induction rest as [|c rest IH]; intros base fs q Hq; [reflexivity|].
  rewrite mkdir_from_step. rewrite under_cons in Hq.
  destruct (fs !! (base ++ [c])) as [[d|]|] eqn:E; cbn; [reflexivity| |].
  - apply IH. tauto.
  - rewrite IH by tauto. apply lookup_insert_ne. intros <-. tauto.
Qed.

Lemma mkdir_from_events base rest fs q :
  Mkdir q ∈ events (mkdir_from base rest fs) -> under base rest q /\ fs !! q = None.
Proof.
  revert base fs. induction rest as [|c rest IH]; intros base fs.
  - cbn. intros []%elem_of_nil.
  - rewrite mkdir_from_step, under_cons.
    destruct (fs !! (base ++ [c])) as [[d|]|] eqn:E; cbn.
    + intros []%elem_of_nil.
    + intros [Hu Hq]%IH. auto.
    + intros [[= ->] | [Hu Hq]%IH]%elem_of_cons; [auto|].
      split; [auto|]. rewrite lookup_insert_ne in Hq; [exact Hq|].
      intros <-. exact (under_not_base _ _ Hu).
Qed.

Lemma mkdir_from_only_mkdir base rest :
  emits_only (fun ev => exists q, ev = Mkdir q) (mkdir_from base rest).
Proof.
  revert base. induction rest as [|c rest IH]; intros base fs; [constructor|].
  rewrite mkdir_from_step.
  destruct (fs !! (base ++ [c])) as [[d|]|]; cbn; [constructor|apply IH|].
  constructor; [eauto | apply IH].
Qed.

Lemma mkdir_from_spec base rest fs :
  (forall q d, under base rest q -> fs !! q <> Some (File d)) ->
  let o := mkdir_from base rest fs in
  result o = Return tt
  /\ forall q, under base rest q ->
       fs_after o !! q = Some Dir /\ (fs !! q = None -> Mkdir q ∈ events o).
Proof.
  revert base fs. induction rest as [|c rest IH]; intros base fs Hfree o; subst o.
  - split; [reflexivity|]. intros q []%under_nil.
  - rewrite mkdir_from_step.
    destruct (fs !! (base ++ [c])) as [[d|]|] eqn:E; cbn.
    + exfalso. apply (Hfree (base ++ [c]) d); [|exact E]. apply under_cons. auto.
    + destruct (IH (base ++ [c]) fs) as [Hres Hdirs].
      { intros q d Hq. apply Hfree, under_cons. auto. }
      split; [exact Hres|]. intros q [-> | Hq]%under_cons; [|auto].
      rewrite mkdir_from_frame by apply under_not_base. split; [exact E | congruence].
    + destruct (IH (base ++ [c]) (<[base ++ [c] := Dir]> fs)) as [Hres Hdirs].
      { intros q d Hq. rewrite lookup_insert_ne.
        - apply Hfree, under_cons. auto.
        - intros <-. exact (under_not_base _ _ Hq). }
      split; [exact Hres|]. intros q [-> | Hq]%under_cons.
      * rewrite mkdir_from_frame by apply under_not_base.
        rewrite lookup_insert_eq. split; [reflexivity|]. intros _. apply list_elem_of_here.
      * destruct (Hdirs q Hq) as [Hd Hm]. split; [exact Hd|].
        intros Hnone. apply list_elem_of_further, Hm.
        rewrite lookup_insert_ne; [exact Hnone|].
        intros <-. exact (under_not_base _ _ Hq).
Qed.

Lemma mkdir_from_existing base rest fs :
  (forall q, under base rest q -> fs !! q = Some Dir) ->
  mkdir_from base rest fs = {| events := []; fs_after := fs; result := Return tt |}.
Proof.
  revert base. induction rest as [|c rest IH]; intros base Hdirs; [reflexivity|].
  rewrite mkdir_from_step, Hdirs by (apply under_cons; auto).
  apply IH. intros q Hq. apply Hdirs, under_cons. auto.
Qed.

Lemma write_frame p chunk : changes_only (eq p) (write p chunk).
Proof.
  intros fs q Hq. unfold write. rewrite get_fs_bind.
  destruct (fs !! p) as [[d|]|]; try reflexivity.
  rewrite put_fs_bind. cbn. apply lookup_insert_ne, Hq.
Qed.

Lemma open_wb_frame p : changes_only (eq p) (open_wb p).
Proof.
  intros fs q Hq. unfold open_wb. rewrite get_fs_bind.
  destruct (node_at fs p) as [[d|]|], (node_at fs (parent p)) as [[d'|]|];
    cbn; try reflexivity; apply lookup_insert_ne, Hq.
Qed.

Lemma write_no_mkdir p chunk : emits_only (fun ev => forall q, ev <> Mkdir q) (write p chunk).
Proof.
  intros fs. unfold write. rewrite get_fs_bind.
  destruct (fs !! p) as [[d|]|]; cbn; repeat constructor; discriminate.
Qed.

Lemma open_wb_no_mkdir p : emits_only (fun ev => forall q, ev <> Mkdir q) (open_wb p).
Proof.
  intros fs. unfold open_wb. rewrite get_fs_bind.
  destruct (node_at fs p) as [[d|]|], (node_at fs (parent p)) as [[d'|]|];
    cbn; repeat constructor; discriminate.
Qed.

(** The loop of lines 101-103 appends every chunk to the open file. *)
Lemma write_loop p (body : list (list byte)) fs data :
  fs !! p = Some (File data) ->
  let o := for_each body (fun chunk =>
             write p chunk ;; emit (ProgressUpdate (Z.of_nat (length chunk)))) fs in
  result o = Return tt
  /\ fs_after o !! p = Some (File (data ++ concat body)).
Proof.
  revert fs data. induction body as [|chunk body IH]; intros fs data Hp o; subst o.
  - cbn. rewrite app_nil_r. auto.
  - cbn [for_each]. rewrite bind_run.
    assert (Hw : (write p chunk ;; emit (ProgressUpdate (Z.of_nat (length chunk)))) fs
                 = {| events := [WriteChunk p chunk; ProgressUpdate (Z.of_nat (length chunk))];
                      fs_after := <[p := File (data ++ chunk)]> fs;
                      result := Return tt |}).
    { unfold write. rewrite bind_run, get_fs_bind, Hp, put_fs_bind. reflexivity. }
    rewrite Hw. cbn [result fs_after events].
    destruct (IH (<[p := File (data ++ chunk)]> fs) (data ++ chunk)) as [Hres Hfs].
    { apply lookup_insert_eq. }
    rewrite Hres, Hfs. cbn [concat]. rewrite app_assoc. auto.
Qed.

(** An event of another shape is not in an explicit list of events. *)
Ltac not_listed :=
  let H := fresh "H" in
  cbn; intros H;
  repeat (apply elem_of_cons in H as [H | H]; [discriminate H|]);
  apply elem_of_nil in H; exact H.

Section ScriptFacts.
Variable py_int : string -> option Z.
Variable dir_st_size : Z.
Variable server : Server.
Variable catalog : resources.t.

Lemma check_keeps_fs model destination verbose no_head_request item :
  keeps_fs (check py_int dir_st_size server model destination verbose no_head_request item).
Proof.
  unfold check, get_check, head_probe, is_size_equal, path_exists, stat_st_size,
    int_, print.
  io_split.
Qed.

Lemma check_no_transfer model destination verbose no_head_request item :
  emits_only no_transfer
    (check py_int dir_st_size server model destination verbose no_head_request item).
Proof.
  unfold check, get_check, head_probe, is_size_equal, path_exists, stat_st_size,
    int_, print.
  io_split; reflexivity.
Qed.

Lemma ret_bind {A B} (a : A) (k : A -> IO B) fs : (mret a ≫= k) fs = k a fs.
Proof. rewrite bind_run. cbn. destruct (k a fs); reflexivity. Qed.

Lemma excluded_spec f1 f2 f3 f4 f5 f6 r :
  excluded f1 f2 f3 f4 f5 f6 r = true <-> exclusion_applies f1 f2 f3 f4 f5 f6 r.
Proof.
  unfold excluded, exclusion_applies.
  rewrite !orb_true_iff, !andb_true_iff, !bool_decide_eq_true, negb_true_iff.
  tauto.
Qed.

Lemma selected_filter f1 f2 f3 f4 f5 f6 models :
  selected f1 f2 f3 f4 f5 f6 models
  = List.filter (fun m => negb (excluded f1 f2 f3 f4 f5 f6 m)) models.
Proof.
  induction models as [|m rest IH]; cbn; [reflexivity|].
  destruct (excluded f1 f2 f3 f4 f5 f6 m); cbn; rewrite IH; reflexivity.
Qed.

Lemma elem_of_selected f1 f2 f3 f4 f5 f6 models r :
  r ∈ selected f1 f2 f3 f4 f5 f6 models
  <-> r ∈ models /\ excluded f1 f2 f3 f4 f5 f6 r = false.
Proof.
  induction models as [|m rest IH]; cbn.
  - rewrite elem_of_nil. tauto.
  - destruct (excluded f1 f2 f3 f4 f5 f6 m) eqn:E;
      rewrite ?elem_of_cons, IH; split.
    + intros [? ?]. auto.
    + intros [[-> | ?] ?]; [congruence | auto].
    + intros [-> | [? ?]]; auto.
    + intros [[-> | ?] ?]; auto.
Qed.

Lemma selected_sublist f1 f2 f3 f4 f5 f6 models :
  selected f1 f2 f3 f4 f5 f6 models `sublist_of` models.
Proof.
  induction models as [|m rest IH]; cbn; [constructor|].
  destruct (excluded f1 f2 f3 f4 f5 f6 m); constructor; exact IH.
Qed.

Lemma count_occ_selected f1 f2 f3 f4 f5 f6 models r :
  excluded f1 f2 f3 f4 f5 f6 r = false ->
  count_occ ModelResource_eq_dec (selected f1 f2 f3 f4 f5 f6 models) r
  = count_occ ModelResource_eq_dec models r.
Proof.
  intros Hr. induction models as [|m rest IH]; cbn; [reflexivity|].
  destruct (excluded f1 f2 f3 f4 f5 f6 m) eqn:E; cbn;
    destruct (ModelResource_eq_dec m r) as [-> | ?]; congruence.
Qed.

Lemma count_occ_NoDup_1 (l : list ModelResource) r :
  NoDup l -> r ∈ l -> count_occ ModelResource_eq_dec l r = 1%nat.
Proof.
  induction 1 as [|x l Hx Hl IH]; intros Hr.
  - apply elem_of_nil in Hr as [].
  - cbn. destruct (ModelResource_eq_dec x r) as [-> | Hne].
    + f_equal. apply count_occ_not_In. rewrite <- list_elem_of_In. exact Hx.
    + apply elem_of_cons in Hr as [-> | Hr]; [congruence | auto].
Qed.

Lemma main_loop_selected models destination verbose dry_run f1 f2 f3 f4 f5 f6 nhr fs :
  main_loop py_int dir_st_size server models destination verbose dry_run
    f1 f2 f3 f4 f5 f6 nhr fs
  = for_each (selected f1 f2 f3 f4 f5 f6 models)
      (fun model =>
         when verbose (print (newline +:+ name model)) ;;
         download py_int dir_st_size server model destination verbose dry_run nhr) fs.
Proof.
  revert fs. induction models as [|m rest IH]; intros fs; cbn [main_loop selected].
  - reflexivity.
  - destruct (excluded f1 f2 f3 f4 f5 f6 m).
    + rewrite ret_bind. apply IH.
    + cbn [for_each]. rewrite !bind_run.
      destruct (result _); [rewrite IH|]; reflexivity.
Qed.

(** C3. Whatever the catalogue and the flags, the loop of [main] skips a
    model exactly when one of the exclusions applies (sd15 family with
    no_sd15, sdxl family with no_sdxl, controlnet with no_controlnet,
    upscaler with no_upscalers, checkpoint with no_checkpoints, preprocessor
    without prefetch); the models it hands to [download] are the others, in
    catalogue order, each as often as the catalogue lists it, hence once
    when the catalogue has no repeated entry. *)
Theorem filter_drops_exactly_the_excluded
    (no_sd15 no_sdxl no_upscalers no_checkpoints no_controlnet prefetch : bool)
    (models : list ModelResource) :
  let applies := exclusion_applies no_sd15 no_sdxl no_upscalers no_checkpoints
                   no_controlnet prefetch in
  let out := selected no_sd15 no_sdxl no_upscalers no_checkpoints no_controlnet
               prefetch models in
  (forall destination verbose dry_run no_head_request fs,
      main_loop py_int dir_st_size server models destination verbose dry_run
        no_sd15 no_sdxl no_upscalers no_checkpoints no_controlnet prefetch
        no_head_request fs
      = for_each out
          (fun model =>
             when verbose (print (newline +:+ name model)) ;;
             download py_int dir_st_size server model destination verbose dry_run
               no_head_request) fs)
  /\ (forall r, r ∈ models -> (r ∉ out <-> applies r))
  /\ out `sublist_of` models
  /\ (forall r, ~ applies r ->
        count_occ ModelResource_eq_dec out r = count_occ ModelResource_eq_dec models r)
  /\ (NoDup models ->
      forall r, r ∈ models -> ~ applies r ->
        count_occ ModelResource_eq_dec out r = 1%nat).
Proof.
  intros applies out. subst applies out.
  assert (Hcount : forall r,
    ~ exclusion_applies no_sd15 no_sdxl no_upscalers no_checkpoints no_controlnet prefetch r ->
    count_occ ModelResource_eq_dec
      (selected no_sd15 no_sdxl no_upscalers no_checkpoints no_controlnet prefetch models) r
    = count_occ ModelResource_eq_dec models r).
  { intros r Hr. apply count_occ_selected.
    rewrite <- excluded_spec in Hr. destruct (excluded _ _ _ _ _ _ r); congruence. }
  split; [|split; [|split; [|split]]].
  - intros. apply main_loop_selected.
  - intros r Hin. rewrite elem_of_selected, <- excluded_spec.
    destruct (excluded _ _ _ _ _ _ r); split.
    + intros _. reflexivity.
    + intros _ [_ ?]. discriminate.
    + intros H. exfalso. apply H. split; [assumption | reflexivity].
    + discriminate.
  - apply selected_sublist.
  - exact Hcount.
  - intros Hnd r Hin Hr. rewrite Hcount by exact Hr. apply count_occ_NoDup_1; assumption.
Qed.

(** *** Dry runs *)

Lemma fetch_dry_run model url target_file resp fs :
  fetch py_int model true url target_file resp fs
  = {| events := [Print ("Downloading " +:+ url)]; fs_after := fs; result := Return tt |}.
Proof. reflexivity. Qed.

Lemma download_file_run model destination verbose dry_run nhr filepath url fs :
  let c := check py_int dir_st_size server model destination verbose nhr (filepath, url) fs in
  download_file py_int dir_st_size server model destination verbose dry_run nhr
    (filepath, url) fs
  = match result c with
    | Return (Some resp) =>
        let f := fetch py_int model dry_run url (destination ++ filepath) resp (fs_after c) in
        {| events := events c ++ events f; fs_after := fs_after f; result := result f |}
    | Return None =>
        {| events := events c ++ []; fs_after := fs_after c; result := Return tt |}
    | Raise e =>
        {| events := events c; fs_after := fs_after c; result := Raise e |}
    end.
Proof.
  intros c. subst c. unfold download_file. rewrite bind_run.
  destruct (result _) as [[resp|]|e]; reflexivity.
Qed.

Lemma download_file_dry_keeps_fs model destination verbose nhr item :
  keeps_fs (download_file py_int dir_st_size server model destination verbose true nhr item).
Proof.
  unfold download_file. apply keeps_fs_bind; [apply check_keeps_fs|].
  intros [resp|]; [|apply keeps_fs_ret]. intros fs. rewrite fetch_dry_run. reflexivity.
Qed.

Lemma download_file_dry_no_transfer model destination verbose nhr item :
  emits_only no_transfer
    (download_file py_int dir_st_size server model destination verbose true nhr item).
Proof.
  unfold download_file. apply emits_only_bind; [apply check_no_transfer|].
  intros [resp|]; [|apply emits_only_ret]. intros fs. rewrite fetch_dry_run.
  repeat constructor.
Qed.

Lemma main_loop_dry_keeps_fs models destination verbose f1 f2 f3 f4 f5 f6 nhr :
  keeps_fs (main_loop py_int dir_st_size server models destination verbose true
              f1 f2 f3 f4 f5 f6 nhr).
Proof.
  induction models as [|m rest IH]; cbn [main_loop]; [apply keeps_fs_ret|].
  apply keeps_fs_bind; [|intros _; exact IH].
  destruct (excluded _ _ _ _ _ _ m); [apply keeps_fs_ret|].
  apply keeps_fs_bind; [apply keeps_fs_when, keeps_fs_emit|].
  intros _. apply keeps_fs_for_each. intros item. apply download_file_dry_keeps_fs.
Qed.

Lemma main_loop_dry_no_transfer models destination verbose f1 f2 f3 f4 f5 f6 nhr :
  emits_only no_transfer
    (main_loop py_int dir_st_size server models destination verbose true
       f1 f2 f3 f4 f5 f6 nhr).
Proof.
  induction models as [|m rest IH]; cbn [main_loop]; [apply emits_only_ret|].
  apply emits_only_bind; [|intros _; exact IH].
  destruct (excluded _ _ _ _ _ _ m); [apply emits_only_ret|].
  apply emits_only_bind; [apply emits_only_when, emits_only_emit; reflexivity|].
  intros _. apply emits_only_for_each. intros item. apply download_file_dry_no_transfer.
Qed.

(** *** Writing a file: lines 96-103 *)

Lemma write_body_frame model target_file resp :
  changes_only (eq target_file) (write_body py_int model target_file resp).
Proof.
  unfold write_body, resp_content_length, int_.
  apply changes_only_bind; [apply open_wb_frame|]. intros _.
  apply changes_only_bind.
  { repeat case_match; apply changes_only_keeps; io_split. }
  intros total. apply changes_only_bind; [apply changes_only_keeps, keeps_fs_emit|].
  intros _. apply changes_only_bind.
  - apply changes_only_for_each. intros chunk.
    apply changes_only_bind; [apply write_frame|].
    intros _. apply changes_only_keeps, keeps_fs_emit.
  - intros _. case_match; apply changes_only_keeps; io_split.
Qed.

Lemma write_body_no_mkdir model target_file resp :
  emits_only (fun ev => forall q, ev <> Mkdir q) (write_body py_int model target_file resp).
Proof.
  unfold write_body, resp_content_length, int_.
  apply emits_only_bind; [apply open_wb_no_mkdir|]. intros _.
  apply emits_only_bind; [io_split|].
  intros total. apply emits_only_bind; [apply emits_only_emit; discriminate|].
  intros _. apply emits_only_bind.
  - apply emits_only_for_each. intros chunk.
    apply emits_only_bind; [apply write_no_mkdir|].
    intros _. apply emits_only_emit. discriminate.
  - intros _. io_split.
Qed.

Lemma open_wb_run p fs :
  node_at fs p <> Some Dir ->
  node_at fs (parent p) = Some Dir ->
  open_wb p fs
  = {| events := [OpenWrite p]; fs_after := <[p := File []]> fs; result := Return tt |}.
Proof.
  intros Hp Hparent. unfold open_wb. rewrite get_fs_bind, Hparent.
  destruct (node_at fs p) as [[d|]|]; [reflexivity | contradiction | reflexivity].
Qed.

Lemma write_body_overwrites model target_file resp fs :
  node_at fs target_file <> Some Dir ->
  node_at fs (parent target_file) = Some Dir ->
  (forall s, content_length_header resp = Some s -> is_Some (py_int s)) ->
  let o := write_body py_int model target_file resp fs in
  fs_after o !! target_file = Some (File (concat (chunks resp)))
  /\ result o = if stream_ok resp then Return tt else Raise ClientConnectionError.
Proof.
  intros Hp Hparent Hint o. subst o. unfold write_body.
  rewrite bind_run, open_wb_run by assumption. cbn [result events fs_after].
  set (fs1 := <[target_file := File []]> fs).
  assert (Hlen : exists total,
    resp_content_length py_int resp fs1
    = {| events := []; fs_after := fs1; result := Return total |}).
  { unfold resp_content_length, int_.
    destruct (content_length_header resp) as [s|] eqn:Hs; [|eexists; reflexivity].
    destruct (Hint s eq_refl) as [n Hn]. rewrite Hn. eexists. reflexivity. }
  destruct Hlen as [total Hlen].
  rewrite bind_run, Hlen. cbn [result events fs_after].
  rewrite emit_bind. cbn [result events fs_after].
  rewrite bind_run.
  destruct (write_loop target_file (chunks resp) fs1 []) as [Hres Hfs].
  { apply lookup_insert_eq. }
  rewrite Hres. cbn [result events fs_after app] in *.
  destruct (stream_ok resp); cbn; auto.
Qed.

Lemma not_under_parent p : ~ under [] (parent p) p.
Proof.
  intros (l & Hl & Hpre & Hq). cbn in Hq. subst l.
  apply prefix_length in Hpre. unfold parent in Hpre.
  destruct p as [|c p] using rev_ind; [done|].
  rewrite removelast_last, length_app in Hpre. cbn in Hpre. lia.
Qed.

Lemma fetch_real_run model url target_file resp fs :
  let m := mkdir_parents (parent target_file) fs in
  fetch py_int model false url target_file resp fs
  = match result m with
    | Return _ =>
        let w := write_body py_int model target_file resp (fs_after m) in
        {| events := Print ("Downloading " +:+ url) :: events m ++ events w;
           fs_after := fs_after w;
           result := result w |}
    | Raise e =>
        {| events := Print ("Downloading " +:+ url) :: events m;
           fs_after := fs_after m;
           result := Raise e |}
    end.
Proof.
  intros m. subst m. unfold fetch, print. rewrite emit_bind. cbn [negb].
  rewrite bind_run. destruct (result _); reflexivity.
Qed.

(** A download that is not a dry run replaces the file by the body of the
    GET response, provided no regular file sits where a directory is
    needed and the Content-Length of the response, if any, is a number. *)
Lemma fetch_overwrites model url target_file resp fs :
  node_at fs target_file <> Some Dir ->
  (forall q d, under [] (parent target_file) q -> fs !! q <> Some (File d)) ->
  (forall s, content_length_header resp = Some s -> is_Some (py_int s)) ->
  let o := fetch py_int model false url target_file resp fs in
  fs_after o !! target_file = Some (File (concat (chunks resp)))
  /\ result o = if stream_ok resp then Return tt else Raise ClientConnectionError.
Proof.
  intros Hp Hfree Hint o. subst o. rewrite fetch_real_run. cbn zeta.
  unfold mkdir_parents.
  destruct (mkdir_from_spec [] (parent target_file) fs Hfree) as [Hres Hdirs].
  rewrite Hres. cbn [fs_after result].
  apply write_body_overwrites; [| |exact Hint].
  - destruct target_file as [|c p]; [exact Hp|].
    cbn [node_at] in *. rewrite mkdir_from_frame; [exact Hp|]. apply not_under_parent.
  - destruct (parent target_file) as [|c p] eqn:E; [reflexivity|].
    cbn [node_at]. apply Hdirs. apply under_root. split; [done|reflexivity].
Qed.

(** *** The steps of the check: lines 64-95 *)

Lemma path_exists_bind {B} p (k : bool -> IO B) fs :
  (path_exists p ≫= k) fs = k (bool_decide (is_Some (node_at fs p))) fs.
Proof.
  unfold path_exists. rewrite bind_run, get_fs_bind.
  unfold mret, IO_ret, io_ret. cbn [result events fs_after app].
  destruct (k _ fs); reflexivity.
Qed.

Lemma found_true fs p node :
  node_at fs p = Some node -> bool_decide (is_Some (node_at fs p)) = true.
Proof. intros H. apply bool_decide_eq_true_2. eauto. Qed.

Lemma stat_file p fs data :
  node_at fs p = Some (File data) ->
  stat_st_size dir_st_size p fs
  = {| events := []; fs_after := fs; result := Return (Z.of_nat (length data)) |}.
Proof. intros H. unfold stat_st_size. rewrite get_fs_bind, H. reflexivity. Qed.

Lemma is_size_equal_run model verbose cl target_file fs data n :
  node_at fs target_file = Some (File data) ->
  py_int cl = Some n ->
  is_size_equal py_int dir_st_size model verbose (Some cl) target_file fs
  = {| events := if (n =? Z.of_nat (length data))%Z then [Print (msg_matches model)]
                 else if verbose then [Print (msg_differs model)] else [];
       fs_after := fs;
       result := Return (n =? Z.of_nat (length data))%Z |}.
Proof.
  intros Hnode Hint. unfold is_size_equal, int_.
  rewrite bind_run, (stat_file _ _ _ Hnode). cbn [result events fs_after].
  rewrite Hint, ret_bind.
  destruct (n =? Z.of_nat (length data))%Z, verbose; reflexivity.
Qed.

Lemma is_size_equal_none model verbose target_file fs node :
  node_at fs target_file = Some node ->
  is_size_equal py_int dir_st_size model verbose None target_file fs
  = {| events := []; fs_after := fs; result := Raise TypeError |}.
Proof.
  intros Hnode. unfold is_size_equal, stat_st_size, int_.
  rewrite bind_run, get_fs_bind, Hnode. destruct node; reflexivity.
Qed.

Lemma head_probe_sized model verbose url target_file fs resp cl data n :
  on_head server url = Responds resp ->
  ok resp = true ->
  content_length_header resp = Some cl ->
  node_at fs target_file = Some (File data) ->
  py_int cl = Some n ->
  head_probe py_int dir_st_size server model verbose url target_file fs
  = {| events := HeadRequest url
                 :: (if (n =? Z.of_nat (length data))%Z then [Print (msg_matches model)]
                     else if verbose then [Print (msg_differs model)] else []);
       fs_after := fs;
       result := Return (if (n =? Z.of_nat (length data))%Z then SkipFile else GoOn true) |}.
Proof.
  intros Hhead Hok Hcl Hnode Hint. unfold head_probe.
  rewrite emit_bind, Hhead, Hok, Hcl, bind_run, (is_size_equal_run _ _ _ _ _ _ _ Hnode Hint).
  cbn [result events fs_after].
  destruct (n =? Z.of_nat (length data))%Z, verbose; reflexivity.
Qed.

Lemma head_probe_no_size model verbose url target_file fs :
  probe_gives_no_size false (on_head server url) ->
  exists lines,
    head_probe py_int dir_st_size server model verbose url target_file fs
    = {| events := HeadRequest url :: lines; fs_after := fs; result := Return (GoOn false) |}
    /\ (verbose = false -> lines = []).
Proof.
  intros [[=] | [Hh | [Hh | (r & Hh & Hr)]]]; unfold head_probe;
    rewrite emit_bind, Hh; cbn [caught_by_probe].
  - destruct verbose; eexists; split; reflexivity || congruence.
  - destruct verbose; eexists; split; reflexivity || congruence.
  - destruct (ok r) eqn:Hok.
    + destruct Hr as [[=] | ->]. eexists. split; reflexivity.
    + destruct verbose; eexists; split; reflexivity || congruence.
Qed.

Lemma head_probe_failed model verbose url target_file fs :
  on_head server url = Fails ServerTimeoutError
  \/ (exists resp, on_head server url = Responds resp /\ ok resp = false) ->
  head_probe py_int dir_st_size server model verbose url target_file fs
  = {| events := HeadRequest url
                 :: (if verbose then [Print (msg_head_failed model)] else []);
       fs_after := fs;
       result := Return (GoOn false) |}.
Proof.
  intros [Hh | (r & Hh & Hok)]; unfold head_probe; rewrite emit_bind, Hh, ?Hok;
    destruct verbose; reflexivity.
Qed.

Lemma get_check_run model verbose url target_file compared_size fs resp :
  on_get server url = Responds resp ->
  ok resp = true ->
  get_check py_int dir_st_size server model verbose url target_file compared_size fs
  = if bool_decide (is_Some (node_at fs target_file)) && negb compared_size then
      if verbose && is_None (content_length_header resp) then
        {| events := [GetRequest url; Print (msg_no_length model)];
           fs_after := fs;
           result := Return (Some resp) |}
      else
        let e := is_size_equal py_int dir_st_size model verbose
                   (content_length_header resp) target_file fs in
        {| events := GetRequest url :: events e;
           fs_after := fs_after e;
           result := match result e with
                     | Return true => Return None
                     | Return false => Return (Some resp)
                     | Raise x => Raise x
                     end |}
    else
      {| events := [GetRequest url]; fs_after := fs; result := Return (Some resp) |}.
Proof.
  intros Hget Hok. unfold get_check.
  rewrite emit_bind, Hget, Hok. cbn [negb]. rewrite path_exists_bind.
  destruct (_ && negb compared_size); [|reflexivity].
  destruct (verbose && _); [reflexivity|].
  cbn zeta. rewrite bind_run.
  destruct (result _) as [[|]|x]; cbn [events fs_after result];
    rewrite ?app_nil_r; reflexivity.
Qed.

Lemma check_run (model : ModelResource) (destination : Path) (verbose nhr : bool)
    (filepath : Path) (url : string) (fs : FS) :
  let target_file := destination ++ filepath in
  let looking : list Event :=
    if verbose then [Print ("Looking for " +:+ path_str target_file)] else [] in
  let p := if bool_decide (is_Some (node_at fs target_file)) && negb nhr
           then head_probe py_int dir_st_size server model verbose url target_file fs
           else {| events := []; fs_after := fs; result := Return (GoOn false) |} in
  check py_int dir_st_size server model destination verbose nhr (filepath, url) fs
  = match result p with
    | Return SkipFile =>
        {| events := looking ++ events p; fs_after := fs_after p; result := Return None |}
    | Return (GoOn compared_size) =>
        let g := get_check py_int dir_st_size server model verbose url target_file
                   compared_size (fs_after p) in
        {| events := looking ++ events p ++ events g;
           fs_after := fs_after g;
           result := result g |}
    | Raise e =>
        {| events := looking ++ events p; fs_after := fs_after p; result := Raise e |}
    end.
Proof.
  intros target_file looking p. subst looking p target_file. unfold check.
  assert (Hrest : forall k : unit -> IO (option ClientResponse),
    (when verbose (print ("Looking for " +:+ path_str (destination ++ filepath))) ≫= k) fs
    = {| events := (if verbose
                    then [Print ("Looking for " +:+ path_str (destination ++ filepath))]
                    else []) ++ events (k tt fs);
         fs_after := fs_after (k tt fs);
         result := result (k tt fs) |}).
  { intros k. destruct verbose; cbn [when]; [reflexivity|].
    rewrite ret_bind. destruct (k tt fs); reflexivity. }
  rewrite Hrest, path_exists_bind, bind_run.
  destruct (_ && negb nhr).
  - destruct (result (head_probe _ _ _ _ _ _ _ fs)) as [[|c]|e];
      cbn [result events fs_after mret IO_ret io_ret]; rewrite ?app_nil_r; reflexivity.
  - reflexivity.
Qed.

(** *** One file at a time *)

(** C4. If the destination file exists, the HEAD request succeeds and its
    Content-Length is the size of the local file, then the file is reported
    with "Found - Local file size matches server's - skipping": the only
    request is the HEAD request, no GET is issued and the file system is
    left untouched, whatever [verbose] and [dry_run] are. *)
Theorem head_size_match_skips
    model destination verbose dry_run filepath url fs data resp cl :
  node_at fs (destination ++ filepath) = Some (File data) ->
  on_head server url = Responds resp ->
  ok resp = true ->
  content_length_header resp = Some cl ->
  py_int cl = Some (Z.of_nat (length data)) ->
  let o := download_file py_int dir_st_size server model destination verbose
             dry_run false (filepath, url) fs in
  events o
  = (if verbose then [Print ("Looking for " +:+ path_str (destination ++ filepath))] else [])
    ++ [HeadRequest url;
        Print (name model +:+ ": Found - Local file size matches server's - skipping")]
  /\ fs_after o = fs
  /\ result o = Return tt
  /\ (forall u, GetRequest u ∉ events o)
  /\ (forall p chunk, (WriteChunk p chunk ∉ events o) /\ (OpenWrite p ∉ events o)).
Proof.
  intros Hnode Hhead Hok Hcl Hint o.
  assert (Hc : check py_int dir_st_size server model destination verbose false
                 (filepath, url) fs
               = {| events :=
                      (if verbose
                       then [Print ("Looking for " +:+ path_str (destination ++ filepath))]
                       else [])
                      ++ [HeadRequest url; Print (msg_matches model)];
                    fs_after := fs;
                    result := Return None |}).
  { rewrite check_run. cbn zeta. rewrite (found_true _ _ _ Hnode). cbn [andb negb].
    rewrite (head_probe_sized _ _ _ _ _ _ _ _ _ Hhead Hok Hcl Hnode Hint), Z.eqb_refl.
    reflexivity. }
  assert (Ho : o = {| events :=
                        (if verbose
                         then [Print ("Looking for " +:+ path_str (destination ++ filepath))]
                         else [])
                        ++ [HeadRequest url; Print (msg_matches model)];
                      fs_after := fs;
                      result := Return tt |}).
  { subst o. rewrite download_file_run. cbn zeta. rewrite Hc.
    cbn [result events fs_after]. rewrite app_nil_r. reflexivity. }
  rewrite Ho. cbn [events fs_after result]. unfold msg_matches.
  repeat split; try reflexivity.
  - intros u. destruct verbose; not_listed.
  - destruct verbose; not_listed.
  - destruct verbose; not_listed.
Qed.

(** C9. If the destination file exists and the HEAD request succeeds with
    a Content-Length that differs from the local size, the GET response is
    used without any comparison of its own Content-Length: after the GET the
    script goes straight to the download, whatever size the GET declares,
    and outside a dry run the file then holds the body of the GET
    response. *)
Theorem head_size_mismatch_downloads_without_second_comparison
    model destination verbose dry_run filepath url fs data hresp cl n gresp :
  node_at fs (destination ++ filepath) = Some (File data) ->
  on_head server url = Responds hresp ->
  ok hresp = true ->
  content_length_header hresp = Some cl ->
  py_int cl = Some n ->
  n <> Z.of_nat (length data) ->
  on_get server url = Responds gresp ->
  ok gresp = true ->
  let o := download_file py_int dir_st_size server model destination verbose
             dry_run false (filepath, url) fs in
  let f := fetch py_int model dry_run url (destination ++ filepath) gresp fs in
  events o
  = (if verbose then [Print ("Looking for " +:+ path_str (destination ++ filepath))] else [])
    ++ [HeadRequest url]
    ++ (if verbose
        then [Print (name model
                     +:+ ": Found - Local file size differs from server's - downloading")]
        else [])
    ++ [GetRequest url]
    ++ events f
  /\ fs_after o = fs_after f
  /\ result o = result f
  /\ (exists rest, events f = Print ("Downloading " +:+ url) :: rest)
  /\ (dry_run = false ->
      (forall q d, q <> [] -> q `prefix_of` parent (destination ++ filepath) ->
                   fs !! q <> Some (File d)) ->
      (forall s, content_length_header gresp = Some s -> is_Some (py_int s)) ->
      fs_after o !! (destination ++ filepath) = Some (File (concat (chunks gresp)))).
Proof.
  intros Hnode Hhead Hok Hcl Hint Hne Hget Hgok o f.
  assert (Hc : check py_int dir_st_size server model destination verbose false
                 (filepath, url) fs
               = {| events :=
                      (if verbose
                       then [Print ("Looking for " +:+ path_str (destination ++ filepath))]
                       else [])
                      ++ [HeadRequest url]
                      ++ (if verbose then [Print (msg_differs model)] else [])
                      ++ [GetRequest url];
                    fs_after := fs;
                    result := Return (Some gresp) |}).
  { rewrite check_run. cbn zeta. rewrite (found_true _ _ _ Hnode). cbn [andb negb].
    rewrite (head_probe_sized _ _ _ _ _ _ _ _ _ Hhead Hok Hcl Hnode Hint).
    apply Z.eqb_neq in Hne. rewrite Hne. cbn [result events fs_after].
    rewrite (get_check_run _ _ _ _ _ _ _ Hget Hgok), andb_false_r.
    cbn [events fs_after result]. reflexivity. }
  subst o. rewrite download_file_run, Hc. cbn [result fs_after events]. cbn zeta.
  fold f. unfold msg_differs. repeat split.
  - rewrite <- !app_assoc. reflexivity.
  - subst f. destruct dry_run; [rewrite fetch_dry_run | rewrite fetch_real_run; cbn zeta];
      [|destruct (result _)]; cbn [events]; eauto.
  - intros -> Hfree Hlen. subst f.
    apply fetch_overwrites; [congruence| |exact Hlen].
    intros q d [Hq Hpre]%under_root. auto.
Qed.

(** C2, evaluated.  The destination exists, the HEAD request gives no size
    and the GET response has no Content-Length: with [verbose] the script
    goes on to download, without [verbose] it calls [int(None)] and the
    TypeError ends the download before anything is written. *)
Theorem missing_content_length_raises_unless_verbose
    model destination verbose dry_run no_head_request filepath url fs node gresp :
  node_at fs (destination ++ filepath) = Some node ->
  probe_gives_no_size no_head_request (on_head server url) ->
  on_get server url = Responds gresp ->
  ok gresp = true ->
  content_length_header gresp = None ->
  result (check py_int dir_st_size server model destination verbose no_head_request
            (filepath, url) fs)
  = (if verbose then Return (Some gresp) else Raise TypeError)
  /\ let o := download_file py_int dir_st_size server model destination false dry_run
                no_head_request (filepath, url) fs in
     result o = Raise TypeError
     /\ fs_after o = fs
     /\ events o = (if no_head_request then [] else [HeadRequest url]) ++ [GetRequest url].
Proof.
  intros Hnode Hprobe Hget Hgok Hgcl.
  assert (Hc : forall v,
    let c := check py_int dir_st_size server model destination v no_head_request
               (filepath, url) fs in
    result c = (if v then Return (Some gresp) else Raise TypeError)
    /\ fs_after c = fs
    /\ (v = false ->
        events c = (if no_head_request then [] else [HeadRequest url]) ++ [GetRequest url])).
  { intros v c. subst c. rewrite check_run. cbn zeta.
    rewrite (found_true _ _ _ Hnode). cbn [andb].
    assert (Hg : get_check py_int dir_st_size server model v url (destination ++ filepath)
                   false fs
                 = {| events := GetRequest url :: (if v then [Print (msg_no_length model)] else []);
                      fs_after := fs;
                      result := if v then Return (Some gresp) else Raise TypeError |}).
    { rewrite (get_check_run _ _ _ _ _ _ _ Hget Hgok), (found_true _ _ _ Hnode), Hgcl.
      cbn [andb negb is_None]. destruct v; cbn [andb]; [reflexivity|].
      cbn zeta. rewrite (is_size_equal_none _ _ _ _ _ Hnode). reflexivity. }
    destruct no_head_request; cbn [negb result events fs_after].
    - rewrite Hg. cbn [result events fs_after].
      repeat split. intros ->. reflexivity.
    - destruct Hprobe as [[=] | Hprobe].
      destruct (head_probe_no_size model v url (destination ++ filepath) fs) as (lines & -> & Hl).
      { right. exact Hprobe. }
      cbn [result events fs_after]. rewrite Hg. cbn [result events fs_after].
      repeat split. intros ->. rewrite Hl by reflexivity. reflexivity. }
  split.
  - apply Hc.
  - destruct (Hc false) as (Hres & Hfs & Hev). specialize (Hev eq_refl).
    rewrite download_file_run. cbn zeta. rewrite Hres, Hfs, Hev. auto.
Qed.

Lemma get_check_starts_with_get model verbose url target_file compared_size fs :
  exists rest,
    events (get_check py_int dir_st_size server model verbose url target_file
              compared_size fs)
    = GetRequest url :: rest.
Proof. unfold get_check. rewrite emit_bind. cbn [events]. eauto. Qed.

Lemma get_check_some model verbose url target_file compared_size fs resp :
  result (get_check py_int dir_st_size server model verbose url target_file
            compared_size fs) = Return (Some resp) ->
  on_get server url = Responds resp.
Proof.
  unfold get_check. rewrite emit_bind.
  destruct (on_get server url) as [r|e]; [|discriminate].
  destruct (ok r); cbn [negb]; [|discriminate].
  rewrite path_exists_bind.
  destruct (_ && negb compared_size); [|cbn; intros [= ->]; reflexivity].
  destruct (verbose && _); [cbn; intros [= ->]; reflexivity|].
  cbn zeta. rewrite bind_run.
  destruct (result (is_size_equal _ _ _ _ _ _ fs)) as [[|]|x]; cbn;
    intros [= ->]; reflexivity.
Qed.

(** A decision to download is only ever taken on a GET response. *)
Lemma check_some_get model destination verbose nhr filepath url fs resp :
  result (check py_int dir_st_size server model destination verbose nhr
            (filepath, url) fs) = Return (Some resp) ->
  on_get server url = Responds resp
  /\ GetRequest url ∈ events (check py_int dir_st_size server model destination
                                verbose nhr (filepath, url) fs).
Proof.
  rewrite check_run. cbn zeta.
  match goal with
  | |- context [match result ?p with _ => _ end] =>
      destruct (result p) as [[|compared]|e]
  end; cbn [result events fs_after]; try discriminate.
  intros Hres. split; [eapply get_check_some, Hres|].
  rewrite !elem_of_app. right. right.
  match goal with
  | |- context [get_check _ _ _ ?m ?v ?u ?t ?c ?s] =>
      destruct (get_check_starts_with_get m v u t c s) as [rest ->]
  end.
  apply list_elem_of_here.
Qed.

(** C10. In a dry run, whenever the check of a file decides that it has to
    be downloaded, that decision was taken on the response of a GET request
    the script did send; the dry run then only prints the "Downloading"
    line: no directory is made, no file opened and nothing written. *)
Theorem dry_run_still_issues_get
    model destination verbose no_head_request filepath url fs resp :
  let c := check py_int dir_st_size server model destination verbose no_head_request
             (filepath, url) fs in
  let o := download_file py_int dir_st_size server model destination verbose true
             no_head_request (filepath, url) fs in
  result c = Return (Some resp) ->
  on_get server url = Responds resp
  /\ GetRequest url ∈ events o
  /\ events o = events c ++ [Print ("Downloading " +:+ url)]
  /\ fs_after o = fs
  /\ result o = Return tt
  /\ Forall no_transfer (events o).
Proof.
  intros c o Hres. subst c o.
  destruct (check_some_get _ _ _ _ _ _ _ _ Hres) as [Hget Hin].
  rewrite download_file_run. cbn zeta. rewrite Hres, fetch_dry_run.
  cbn [events fs_after result].
  repeat split; [exact Hget | | apply check_keeps_fs |].
  - apply elem_of_app. left. exact Hin.
  - apply Forall_app. split; [apply check_no_transfer | repeat constructor].
Qed.

(** *** Failing requests *)

Lemma get_check_bad_status model verbose url target_file compared_size fs resp :
  on_get server url = Responds resp ->
  ok resp = false ->
  get_check py_int dir_st_size server model verbose url target_file compared_size fs
  = {| events := [GetRequest url]; fs_after := fs; result := Raise ClientResponseError |}.
Proof.
  intros Hget Hok. unfold get_check. rewrite emit_bind, Hget, Hok. reflexivity.
Qed.

Lemma check_fatal url resp model destination verbose nhr item :
  on_get server url = Responds resp ->
  ok resp = false ->
  fatal_get url (check py_int dir_st_size server model destination verbose nhr item).
Proof.
  intros Hget Hok. destruct item as [filepath url']. unfold check.
  apply fatal_get_bind.
  { apply fatal_get_quiet. unfold print. io_split. discriminate. }
  intros _. apply fatal_get_bind.
  { apply fatal_get_quiet. unfold path_exists. io_split. }
  intros found. apply fatal_get_bind.
  { apply fatal_get_quiet.
    unfold head_probe, is_size_equal, stat_st_size, int_, print.
    io_split; discriminate. }
  intros [|compared]; [apply fatal_get_quiet, emits_only_ret|].
  destruct (decide (url' = url)) as [-> | Hne].
  - intros fs. rewrite (get_check_bad_status _ _ _ _ _ _ _ Hget Hok).
    right. split; [reflexivity|]. exists []. split; [reflexivity|]. apply not_elem_of_nil.
  - apply fatal_get_quiet.
    unfold get_check, is_size_equal, path_exists, stat_st_size, int_, print.
    io_split; congruence.
Qed.

Lemma fetch_no_get url model dry_run url' target_file resp :
  emits_only (fun ev => ev <> GetRequest url)
    (fetch py_int model dry_run url' target_file resp).
Proof.
  unfold fetch, print. apply emits_only_bind; [apply emits_only_emit; discriminate|].
  intros _. destruct dry_run; cbn [negb]; [apply emits_only_ret|].
  apply emits_only_bind.
  - eapply emits_only_weaken; [|apply mkdir_from_only_mkdir].
    intros ev [q ->]. discriminate.
  - intros _. unfold write_body, open_wb, write, resp_content_length, int_.
    io_split; discriminate.
Qed.

Lemma main_fatal url resp destination verbose dry_run f1 f2 f3 f4 f5 f6 minimal nhr :
  on_get server url = Responds resp ->
  ok resp = false ->
  fatal_get url (main py_int dir_st_size server catalog destination verbose dry_run
                   f1 f2 f3 f4 f5 f6 minimal nhr).
Proof.
  intros Hget Hok. unfold main.
  apply fatal_get_bind; [apply fatal_get_quiet, emits_only_emit; discriminate|].
  intros _. cbn zeta.
  generalize (if minimal then required_models catalog else resources.all_models catalog).
  intros models. induction models as [|m rest IH]; cbn [main_loop].
  { apply fatal_get_quiet, emits_only_ret. }
  apply fatal_get_bind; [|intros _; exact IH].
  destruct (excluded _ _ _ _ _ _ m); [apply fatal_get_quiet, emits_only_ret|].
  apply fatal_get_bind.
  { apply fatal_get_quiet, emits_only_when, emits_only_emit. discriminate. }
  intros _. apply fatal_get_for_each. intros item. unfold download_file.
  apply fatal_get_bind; [eapply check_fatal; eassumption|].
  intros [r|]; [|apply fatal_get_quiet, emits_only_ret].
  apply fatal_get_quiet, fetch_no_get.
Qed.

(** C7. When the server answers the GET of a URL with an error status, the
    first GET request for that URL in a run is the last thing the run does:
    the run ends there with ClientResponseError, the request is not sent
    again and no later file or model is touched.  On the HEAD request an
    error status or a timeout is recovered from: the failure is printed
    when [verbose] and the script goes on with the GET request, without a
    size from the probe. *)
Theorem get_status_is_fatal_head_failure_is_not :
  (forall a fs url resp,
      on_get server url = Responds resp ->
      ok resp = false ->
      let o := __main__ py_int dir_st_size server catalog a fs in
      GetRequest url ∈ events o ->
      result o = Raise ClientResponseError
      /\ exists before, events o = before ++ [GetRequest url]
                        /\ GetRequest url ∉ before)
  /\ (forall model destination verbose filepath url fs,
        is_Some (node_at fs (destination ++ filepath)) ->
        on_head server url = Fails ServerTimeoutError
        \/ (exists resp, on_head server url = Responds resp /\ ok resp = false) ->
        let c := check py_int dir_st_size server model destination verbose false
                   (filepath, url) fs in
        let g := get_check py_int dir_st_size server model verbose url
                   (destination ++ filepath) false fs in
        events c
        = (if verbose
           then [Print ("Looking for " +:+ path_str (destination ++ filepath))] else [])
          ++ [HeadRequest url]
          ++ (if verbose
              then [Print (name model +:+ ": HEAD request failed, falling back to GET request")]
              else [])
          ++ events g
        /\ fs_after c = fs_after g
        /\ result c = result g
        /\ exists rest, events g = GetRequest url :: rest).
Proof.
  split.
  - intros a fs url resp Hget Hok o Hin. subst o.
    destruct (main_fatal url resp (args.destination a) (args.verbose a) (args.dry_run a)
                (args.no_sd15 a) (args.no_sdxl a || args.minimal a) (args.no_upscalers a)
                (args.no_checkpoints a) (args.no_controlnet a) (args.prefetch a)
                (args.minimal a) false Hget Hok fs) as [Hno | H].
    + contradiction.
    + exact H.
  - intros model destination verbose filepath url fs Hfound Hhead c g. subst c g.
    destruct Hfound as [node Hnode].
    rewrite check_run. cbn zeta. rewrite (found_true _ _ _ Hnode). cbn [andb negb].
    rewrite (head_probe_failed _ _ _ _ _ Hhead). cbn [result events fs_after].
    unfold msg_head_failed.
    repeat split. apply get_check_starts_with_get.
Qed.

(** *** Directories *)

(** C8, as amended.  A download that writes a file first makes the parent
    directory of the destination file together with every missing
    directory above it, and makes no other directory; the destination
    directory given on the command line is one of them, so it is created
    by the script when it does not exist. *)
Theorem download_creates_missing_directories
    (model : ModelResource) (url : string) (destination filepath : Path)
    (resp : ClientResponse) (fs : FS) :
  filepath <> [] ->
  (forall q d, q <> [] -> q `prefix_of` parent (destination ++ filepath) ->
               fs !! q <> Some (File d)) ->
  let target_file := destination ++ filepath in
  let o := fetch py_int model false url target_file resp fs in
  (forall q, q <> [] -> q `prefix_of` parent target_file ->
             fs_after o !! q = Some Dir /\ (fs !! q = None -> Mkdir q ∈ events o))
  /\ (forall q, Mkdir q ∈ events o ->
               q <> [] /\ q `prefix_of` parent target_file /\ fs !! q = None)
  /\ (destination <> [] ->
      fs_after o !! destination = Some Dir
      /\ (fs !! destination = None -> Mkdir destination ∈ events o)).
Proof.
  intros Hfile Hfree target_file o. subst o target_file.
  rewrite fetch_real_run. cbn zeta. unfold mkdir_parents.
  destruct (mkdir_from_spec [] (parent (destination ++ filepath)) fs) as [Hres Hdirs].
  { intros q d [Hq Hpre]%under_root. auto. }
  rewrite Hres. cbn [events fs_after result].
  set (m := mkdir_from [] (parent (destination ++ filepath)) fs) in *.
  set (w := write_body py_int model (destination ++ filepath) resp (fs_after m)).
  assert (Hall : forall q, q <> [] -> q `prefix_of` parent (destination ++ filepath) ->
            fs_after w !! q = Some Dir
            /\ (fs !! q = None -> Mkdir q ∈ Print ("Downloading " +:+ url) :: events m ++ events w)).
  { intros q Hq Hpre. destruct (Hdirs q) as [Hd Hm]; [apply under_root; auto|].
    split.
    - subst w. rewrite write_body_frame; [exact Hd|].
      intros <-. apply (not_under_parent (destination ++ filepath)).
      apply under_root. auto.
    - intros Hnone. apply list_elem_of_further, elem_of_app. left. auto. }
  split; [exact Hall|]. split.
  - intros q [Hc | Hin]%elem_of_cons; [discriminate|].
    apply elem_of_app in Hin as [Hin | Hin].
    + apply mkdir_from_events in Hin as [Hu Hnone]. apply under_root in Hu. tauto.
    + exfalso.
      pose proof (write_body_no_mkdir model (destination ++ filepath) resp (fs_after m)) as Hw.
      rewrite Forall_forall in Hw. exact (Hw _ Hin q eq_refl).
  - intros Hdest. apply Hall; [exact Hdest|].
    unfold parent. rewrite removelast_app by exact Hfile.
    apply prefix_app_r. reflexivity.
Qed.

(** *** The command line *)

(** C5. With [--minimal] the models the loop of [main] goes over are the
    entries of [resources.required_models] followed by the first entry of
    [resources.default_checkpoints], not [all_models()], and [main] is
    called with [no_sdxl] set, so that no model of the sdxl family is
    handed to [download]. *)
Theorem minimal_restricts_the_catalogue (a : args.t) (fs : FS) c cs :
  args.minimal a = true ->
  resources.default_checkpoints catalog = c :: cs ->
  let models := resources.required_models catalog ++ [c] in
  required_models catalog = models
  /\ __main__ py_int dir_st_size server catalog a fs
     = (print (banner catalog) ;;
        main_loop py_int dir_st_size server models (args.destination a)
          (args.verbose a || args.dry_run a) (args.dry_run a) (args.no_sd15 a) true
          (args.no_upscalers a) (args.no_checkpoints a) (args.no_controlnet a)
          (args.prefetch a) false) fs
  /\ (forall r,
        r ∈ selected (args.no_sd15 a) true (args.no_upscalers a) (args.no_checkpoints a)
              (args.no_controlnet a) (args.prefetch a) models ->
        r ∈ models /\ sd_version r <> sdxl).
Proof.
  intros Hmin Hdef models. subst models.
  unfold __main__, main, required_models. rewrite Hmin, Hdef, orb_true_r. cbn [take].
  split; [reflexivity|]. split; [reflexivity|].
  intros r [Hin Hex]%elem_of_selected. split; [exact Hin|].
  intros Hsdxl.
  assert (Hyes : excluded (args.no_sd15 a) true (args.no_upscalers a)
                   (args.no_checkpoints a) (args.no_controlnet a) (args.prefetch a) r
                 = true).
  { apply excluded_spec. right. left. auto. }
  congruence.
Qed.

(** [download] itself honours [no_head_request]: with the flag set it
    sends no HEAD request. *)
Lemma get_check_no_head model verbose url target_file compared_size :
  emits_only (fun ev => forall u, ev <> HeadRequest u)
    (get_check py_int dir_st_size server model verbose url target_file compared_size).
Proof.
  unfold get_check, is_size_equal, path_exists, stat_st_size, int_, print.
  io_split; congruence.
Qed.

Lemma download_honours_no_head_request model destination verbose dry_run :
  emits_only (fun ev => forall u, ev <> HeadRequest u)
    (download py_int dir_st_size server model destination verbose dry_run true).
Proof.
  unfold download. apply emits_only_for_each. intros [filepath url].
  unfold download_file. apply emits_only_bind.
  - intros fs. rewrite check_run. cbn zeta. rewrite andb_false_r.
    cbn [result events fs_after app]. apply Forall_app. split.
    + destruct verbose; repeat constructor. discriminate.
    + apply get_check_no_head.
  - intros [resp|]; [|apply emits_only_ret].
    unfold fetch, print. apply emits_only_bind; [apply emits_only_emit; discriminate|].
    intros _. destruct dry_run; cbn [negb]; [apply emits_only_ret|].
    apply emits_only_bind.
    + eapply emits_only_weaken; [|apply mkdir_from_only_mkdir].
      intros ev [q ->]. discriminate.
    + intros _. unfold write_body, open_wb, write, resp_content_length, int_.
      io_split; congruence.
Qed.

(** *** A dry run of [main] *)

Lemma for_each_ext {A} (xs : list A) (body1 body2 : A -> IO unit) fs :
  (forall x fs', body1 x fs' = body2 x fs') ->
  for_each xs body1 fs = for_each xs body2 fs.
Proof.
  intros H. revert fs. induction xs as [|x xs IH]; intros fs; [reflexivity|].
  cbn [for_each]. rewrite !bind_run, H.
  destruct (result (body2 x fs)); [rewrite IH|]; reflexivity.
Qed.

(** A loop that ends normally has run its body on every element. *)
Lemma for_each_return_in {A} (xs : list A) (body : A -> IO unit) fs x :
  result (for_each xs body fs) = Return tt ->
  x ∈ xs ->
  exists fs', result (body x fs') = Return tt
              /\ forall ev, ev ∈ events (body x fs') -> ev ∈ events (for_each xs body fs).
Proof.
  revert fs. induction xs as [|y ys IH]; intros fs Hres Hin.
  - apply elem_of_nil in Hin as [].
  - cbn [for_each] in *. rewrite bind_run in *.
    destruct (result (body y fs)) as [[]|e] eqn:Hy; [|discriminate Hres].
    cbn [result events] in *.
    apply elem_of_cons in Hin as [-> | Hin].
    + exists fs. split; [exact Hy|]. intros ev Hev. apply elem_of_app. auto.
    + destruct (IH _ Hres Hin) as (fs' & Hres' & Hsub).
      exists fs'. split; [exact Hres'|]. intros ev Hev. apply elem_of_app. auto.
Qed.

Lemma head_probe_starts_with_head model verbose url target_file fs :
  exists rest,
    events (head_probe py_int dir_st_size server model verbose url target_file fs)
    = HeadRequest url :: rest.
Proof. unfold head_probe. rewrite emit_bind. cbn [events]. eauto. Qed.

(** With [verbose] the check of a file always prints the "Looking for" line
    and always sends a request for the file. *)
Lemma check_looks_and_requests model (destination : Path) nhr (filepath : Path) url fs :
  let c := check py_int dir_st_size server model destination true nhr (filepath, url) fs in
  Print ("Looking for " +:+ path_str (destination ++ filepath)) ∈ events c
  /\ (HeadRequest url ∈ events c \/ GetRequest url ∈ events c).
Proof.
  intros c. subst c. rewrite check_run. cbn zeta.
  destruct (bool_decide (is_Some (node_at fs (destination ++ filepath))) && negb nhr).
  - destruct (head_probe_starts_with_head model true url (destination ++ filepath) fs)
      as [rest Hp].
    destruct (result (head_probe _ _ _ _ _ _ _ fs)) as [[|compared]|e];
      cbn [result events fs_after]; rewrite Hp;
      (split; [apply list_elem_of_here|]); left;
      apply list_elem_of_further, list_elem_of_here.
  - cbn [result events fs_after].
    destruct (get_check_starts_with_get model true url (destination ++ filepath) false fs)
      as [rest Hg].
    rewrite Hg. split; [apply list_elem_of_here|]. right.
    apply list_elem_of_further, list_elem_of_here.
Qed.

(** In a dry run the body of the loop of [download] is the check followed by
    the "Downloading" line when the check decides to download. *)
Lemma download_file_dry_is_check model destination verbose nhr item fs :
  download_file py_int dir_st_size server model destination verbose true nhr item fs
  = (decision ← check py_int dir_st_size server model destination verbose nhr item;
     match decision with
     | None => mret tt
     | Some _ => print ("Downloading " +:+ item.2)
     end) fs.
Proof.
  unfold download_file. rewrite !bind_run.
  destruct (result _) as [[resp|]|e]; reflexivity.
Qed.

(** C6. With [dry_run] set, a whole run of [main] leaves every file as it
    was and performs no mkdir, open, write or progress-bar action.  The run
    is the banner followed, for every selected model in turn, by the line
    with its name and, for each of its files, by the existence / size check
    run with [verbose] on and the "Downloading" line when the check decides
    to download: whatever [verbose] was, it is forced on.  A dry run that
    ends normally has therefore printed the name of every selected model and
    the "Looking for" line of every one of their files, and has sent a HEAD
    or GET request for each of them.  For one file the dry run emits the
    events of the check, as a real run does before it writes. *)
Theorem dry_run_writes_nothing_but_still_checks :
  (forall destination verbose no_sd15 no_sdxl no_upscalers no_checkpoints
          no_controlnet prefetch minimal no_head_request fs,
      let o := main py_int dir_st_size server catalog destination verbose true
                 no_sd15 no_sdxl no_upscalers no_checkpoints no_controlnet
                 prefetch minimal no_head_request fs in
      fs_after o = fs /\ Forall no_transfer (events o))
  /\ (forall destination verbose no_sd15 no_sdxl no_upscalers no_checkpoints
            no_controlnet prefetch minimal no_head_request fs,
        main py_int dir_st_size server catalog destination verbose true
          no_sd15 no_sdxl no_upscalers no_checkpoints no_controlnet
          prefetch minimal no_head_request fs
        = main py_int dir_st_size server catalog destination true true
            no_sd15 no_sdxl no_upscalers no_checkpoints no_controlnet
            prefetch minimal no_head_request fs)
  /\ (forall model destination verbose no_head_request filepath url fs,
        let c := check py_int dir_st_size server model destination verbose
                   no_head_request (filepath, url) fs in
        let dry := download_file py_int dir_st_size server model destination
                     verbose true no_head_request (filepath, url) fs in
        let real := download_file py_int dir_st_size server model destination
                      verbose false no_head_request (filepath, url) fs in
        events dry
        = events c ++ match result c with
                      | Return (Some _) => [Print ("Downloading " +:+ url)]
                      | _ => []
                      end
        /\ events real
           = events c ++ match result c with
                         | Return (Some resp) =>
                             events (fetch py_int model false url
                                       (destination ++ filepath) resp (fs_after c))
                         | _ => []
                         end)
  /\ (forall (destination : Path)
             (verbose no_sd15 no_sdxl no_upscalers no_checkpoints no_controlnet
              prefetch minimal no_head_request : bool) (fs : FS),
        let models :=
          if minimal then required_models catalog else resources.all_models catalog in
        main py_int dir_st_size server catalog destination verbose true
          no_sd15 no_sdxl no_upscalers no_checkpoints no_controlnet
          prefetch minimal no_head_request fs
        = (print (banner catalog) ;;
           for_each
             (selected no_sd15 no_sdxl no_upscalers no_checkpoints no_controlnet
                prefetch models)
             (fun model =>
                print (newline +:+ name model) ;;
                for_each (files model)
                  (fun item =>
                     decision ← check py_int dir_st_size server model destination true
                                  no_head_request item;
                     match decision with
                     | None => mret tt
                     | Some _ => print ("Downloading " +:+ item.2)
                     end))) fs)
  /\ (forall (destination : Path)
             (verbose no_sd15 no_sdxl no_upscalers no_checkpoints no_controlnet
              prefetch minimal no_head_request : bool) (fs : FS),
        let models :=
          if minimal then required_models catalog else resources.all_models catalog in
        let o := main py_int dir_st_size server catalog destination verbose true
                   no_sd15 no_sdxl no_upscalers no_checkpoints no_controlnet
                   prefetch minimal no_head_request fs in
        result o = Return tt ->
        forall model filepath url,
          model ∈ models ->
          ~ exclusion_applies no_sd15 no_sdxl no_upscalers no_checkpoints no_controlnet
              prefetch model ->
          (filepath, url) ∈ files model ->
          Print (newline +:+ name model) ∈ events o
          /\ Print ("Looking for " +:+ path_str (destination ++ filepath)) ∈ events o
          /\ (HeadRequest url ∈ events o \/ GetRequest url ∈ events o)).
Proof.
  assert (Hshape : forall (destination : Path)
             (verbose no_sd15 no_sdxl no_upscalers no_checkpoints no_controlnet
              prefetch minimal no_head_request : bool) (fs : FS),
        main py_int dir_st_size server catalog destination verbose true
          no_sd15 no_sdxl no_upscalers no_checkpoints no_controlnet
          prefetch minimal no_head_request fs
        = (print (banner catalog) ;;
           for_each
             (selected no_sd15 no_sdxl no_upscalers no_checkpoints no_controlnet
                prefetch
                (if minimal then required_models catalog else resources.all_models catalog))
             (fun model =>
                print (newline +:+ name model) ;;
                for_each (files model)
                  (fun item =>
                     decision ← check py_int dir_st_size server model destination true
                                  no_head_request item;
                     match decision with
                     | None => mret tt
                     | Some _ => print ("Downloading " +:+ item.2)
                     end))) fs).
  { intros. unfold main, print. rewrite !emit_bind, orb_true_r. cbn zeta.
    rewrite main_loop_selected.
    erewrite for_each_ext; [reflexivity|].
    intros model fs1. cbn [when]. unfold print. rewrite !emit_bind.
    unfold download. erewrite for_each_ext; [reflexivity|].
    intros item fs2. apply download_file_dry_is_check. }
  split; [|split; [|split; [|split]]].
  - intros. subst o. unfold main. split.
    + apply keeps_fs_bind; [apply keeps_fs_emit|].
      intros _. apply main_loop_dry_keeps_fs.
    + apply emits_only_bind; [apply emits_only_emit; reflexivity|].
      intros _. apply main_loop_dry_no_transfer.
  - intros. unfold main. rewrite orb_true_r. reflexivity.
  - intros. subst c dry real. rewrite !download_file_run. cbn zeta.
    destruct (result _) as [[resp|]|e]; cbn [events]; rewrite ?app_nil_r; auto.
  - intros. apply Hshape.
  - intros destination verbose no_sd15 no_sdxl no_upscalers no_checkpoints no_controlnet
      prefetch minimal no_head_request fs models o Hres model filepath url Hmodel Hnot Hfile.
    subst o. rewrite Hshape in *. fold models in Hres |- *.
    unfold print in Hres |- *. rewrite emit_bind in *. cbn [result events] in *.
    assert (Hsel : model ∈ selected no_sd15 no_sdxl no_upscalers no_checkpoints
                             no_controlnet prefetch models).
    { apply elem_of_selected. split; [exact Hmodel|].
      rewrite <- excluded_spec in Hnot. destruct (excluded _ _ _ _ _ _ model); congruence. }
    destruct (for_each_return_in _ _ _ _ Hres Hsel) as (fs1 & Hres1 & Hsub1).
    rewrite emit_bind in Hres1, Hsub1. cbn [result events] in Hres1, Hsub1.
    destruct (for_each_return_in _ _ _ _ Hres1 Hfile) as (fs2 & _ & Hsub2).
    assert (Hfrom : forall ev,
      ev ∈ events (check py_int dir_st_size server model destination true no_head_request
                     (filepath, url) fs2) ->
      ev ∈ Print (banner catalog)
           :: events (for_each
                        (selected no_sd15 no_sdxl no_upscalers no_checkpoints no_controlnet
                           prefetch models)
                        (fun model =>
                           emit (Print (newline +:+ name model)) ;;
                           for_each (files model)
                             (fun item =>
                                decision ← check py_int dir_st_size server model
                                             destination true no_head_request item;
                                match decision with
                                | None => mret tt
                                | Some _ => emit (Print ("Downloading " +:+ item.2))
                                end)) fs)).
    { intros ev Hev. apply list_elem_of_further, Hsub1, list_elem_of_further, Hsub2.
      rewrite bind_run.
      destruct (result (check _ _ _ _ _ _ _ _ fs2)) as [[resp|]|e]; cbn [events];
        rewrite ?elem_of_app; auto. }
    destruct (check_looks_and_requests model destination no_head_request filepath url fs2)
      as [Hlook Hreq].
    split; [|split].
    + apply list_elem_of_further, Hsub1, list_elem_of_here.
    + apply Hfrom, Hlook.
    + destruct Hreq as [Hreq | Hreq]; [left | right]; apply Hfrom, Hreq.
Qed.

End ScriptFacts.

(** ** The scenarios, evaluated *)

(** Settles a decidable statement about concrete data by evaluation. *)
Ltac by_compute := apply (bool_decide_unpack _); vm_compute; exact I.

(** With no_sdxl and no_controlnet set, a catalogue of four distinct models
    keeps the first and the third, each once. *)
Lemma filter_drops_exactly_the_excluded_witness :
  let catalogue := [model_X; controlnet_15; checkpoint_15; checkpoint_xl] in
  NoDup catalogue
  /\ selected false true false false true false catalogue = [model_X; checkpoint_15]
  /\ count_occ ModelResource_eq_dec
       (selected false true false false true false catalogue) checkpoint_15 = 1%nat.
Proof.
  intros catalogue.
  assert (Hnd : NoDup catalogue) by by_compute.
  split; [exact Hnd|]. split; [reflexivity|].
  apply (filter_drops_exactly_the_excluded decimal 4096
           (server_of (Fails ServerTimeoutError) (Fails ServerTimeoutError))
           false true false false true false catalogue).
  - exact Hnd.
  - by_compute.
  - unfold exclusion_applies. cbn. intuition discriminate.
Defined.

(** The first scenario of the specification: x.bin is 100 bytes long and the
    HEAD response declares 100. *)
Lemma head_size_match_skips_witness :
  let server := server_of (Responds (response (Some "100")))
                          (Responds (response (Some "100"))) in
  let o := download_file decimal 4096 server model_X ["out"] true false false
             (["x.bin"], url_x) (fs_with_x 100) in
  node_at (fs_with_x 100) ["out"; "x.bin"] = Some (File (zeros 100))
  /\ decimal "100" = Some (Z.of_nat (length (zeros 100)))
  /\ events o = [Print "Looking for out/x.bin"; HeadRequest url_x;
                 Print "X: Found - Local file size matches server's - skipping"]
  /\ fs_after o = fs_with_x 100
  /\ result o = Return tt.
Proof.
  intros server o.
  assert (Hnode : node_at (fs_with_x 100) ["out"; "x.bin"] = Some (File (zeros 100)))
    by (vm_compute; reflexivity).
  assert (Hint : decimal "100" = Some (Z.of_nat (length (zeros 100))))
    by (vm_compute; reflexivity).
  destruct (head_size_match_skips decimal 4096 server model_X ["out"] true false
              ["x.bin"] url_x (fs_with_x 100) (zeros 100) (response (Some "100")) "100"
              Hnode eq_refl eq_refl eq_refl Hint) as (Hev & Hfs & Hres & _).
  repeat split; assumption.
Defined.

(** [--minimal] on a catalogue with one required model and two default
    checkpoints. *)
Lemma minimal_restricts_the_catalogue_witness :
  let a := command_line false false true false in
  args.minimal a = true
  /\ required_models catalog_X = [model_X; checkpoint_15].
Proof.
  intros a. split; [reflexivity|].
  apply (minimal_restricts_the_catalogue decimal 4096
           (server_of (Fails ServerTimeoutError) (Fails ServerTimeoutError))
           catalog_X a ∅ checkpoint_15 [checkpoint_xl]); reflexivity.
Defined.

(** A server that answers every request with an error status: the HEAD
    failure is passed over, the GET failure ends the run. *)
Lemma get_status_is_fatal_head_failure_is_not_witness :
  let server := server_of (Responds error_response) (Responds error_response) in
  let o := __main__ decimal 4096 server catalog_X
             (command_line false false false false) (fs_with_x 100) in
  GetRequest url_x ∈ events o
  /\ result o = Raise ClientResponseError
  /\ events o = [Print "Generative AI for Krita - Model download - v1.0";
                 HeadRequest url_x; GetRequest url_x]
  /\ fs_after o = fs_with_x 100.
Proof.
  intros server o.
  assert (Hin : GetRequest url_x ∈ events o) by by_compute.
  split; [exact Hin|].
  destruct (get_status_is_fatal_head_failure_is_not decimal 4096 server catalog_X)
    as [Hget _].
  destruct (Hget (command_line false false false false) (fs_with_x 100) url_x
              error_response eq_refl eq_refl Hin) as [Hres _].
  split; [exact Hres|]. split; vm_compute; reflexivity.
Defined.

(** x.bin is 100 bytes long, the HEAD response declares 50 and the GET
    response declares 100: the file is replaced by the three bytes of the
    body all the same. *)
Lemma head_size_mismatch_downloads_without_second_comparison_witness :
  let server := server_of (Responds (response (Some "50")))
                          (Responds (response (Some "100"))) in
  let o := download_file decimal 4096 server model_X ["out"] false false false
             (["x.bin"], url_x) (fs_with_x 100) in
  decimal "50" = Some 50
  /\ decimal "100" = Some (Z.of_nat (length (zeros 100)))
  /\ fs_after o !! ["out"; "x.bin"] = Some (File ["001"; "002"; "003"]%byte)
  /\ result o = Return tt.
Proof.
  intros server o.
  assert (Hnode : node_at (fs_with_x 100) ["out"; "x.bin"] = Some (File (zeros 100)))
    by (vm_compute; reflexivity).
  assert (Hne : 50 <> Z.of_nat (length (zeros 100))) by (vm_compute; discriminate).
  destruct (head_size_mismatch_downloads_without_second_comparison decimal 4096 server
              model_X ["out"] false false ["x.bin"] url_x (fs_with_x 100) (zeros 100)
              (response (Some "50")) "50" 50 (response (Some "100"))
              Hnode eq_refl eq_refl eq_refl eq_refl Hne eq_refl eq_refl)
    as (_ & _ & _ & _ & Hover).
  split; [reflexivity|]. split; [vm_compute; reflexivity|]. split.
  - apply Hover; [reflexivity| |].
    + intros q d Hq Hpre Hfile.
      apply prefix_length in Hpre as Hlen.
      destruct q as [|c [|c' q]]; [done| |cbn in Hlen; lia].
      destruct Hpre as [k Hk]. cbn in Hk. injection Hk as <- _.
      vm_compute in Hfile. discriminate.
    + intros s [= <-]. vm_compute. eauto.
  - vm_compute. reflexivity.
Defined.

(** A dry run for a file that is not there yet. *)
Lemma dry_run_still_issues_get_witness :
  let server := server_of (Fails ServerTimeoutError) (Responds (response (Some "3"))) in
  let o := download_file decimal 4096 server model_X ["out"] true true false
             (["x.bin"], url_x) ∅ in
  result (check decimal 4096 server model_X ["out"] true false (["x.bin"], url_x) ∅)
  = Return (Some (response (Some "3")))
  /\ GetRequest url_x ∈ events o
  /\ fs_after o = ∅.
Proof.
  intros server o.
  assert (Hres : result (check decimal 4096 server model_X ["out"] true false
                           (["x.bin"], url_x) ∅)
                 = Return (Some (response (Some "3")))) by (vm_compute; reflexivity).
  destruct (dry_run_still_issues_get decimal 4096 server model_X ["out"] true false
              ["x.bin"] url_x ∅ (response (Some "3")) Hres)
    as (_ & Hin & _ & Hfs & _).
  repeat split; assumption.
Defined.

(** x.bin exists, the HEAD request times out and the GET response has no
    Content-Length: without [verbose] the download ends in TypeError. *)
Lemma missing_content_length_raises_unless_verbose_witness :
  let server := server_of (Fails ServerTimeoutError) (Responds (response None)) in
  let o := download_file decimal 4096 server model_X ["out"] false false false
             (["x.bin"], url_x) (fs_with_x 100) in
  result o = Raise TypeError
  /\ fs_after o = fs_with_x 100
  /\ events o = [HeadRequest url_x; GetRequest url_x].
Proof.
  intros server o.
  assert (Hnode : node_at (fs_with_x 100) ["out"; "x.bin"] = Some (File (zeros 100)))
    by (vm_compute; reflexivity).
  assert (Hprobe : probe_gives_no_size false (on_head server url_x)).
  { right. right. left. reflexivity. }
  destruct (missing_content_length_raises_unless_verbose decimal 4096 server model_X
              ["out"] false false false ["x.bin"] url_x (fs_with_x 100) (File (zeros 100))
              (response None) Hnode Hprobe eq_refl eq_refl eq_refl) as [_ H].
  exact H.
Defined.

(** Fetching out/x.bin into an empty working directory makes [out]. *)
Lemma download_creates_missing_directories_witness :
  let o := fetch decimal model_X false url_x (["out"] ++ ["x.bin"]) (response (Some "3")) ∅ in
  (∅ : FS) !! ["out"] = None
  /\ fs_after o !! ["out"] = Some Dir
  /\ Mkdir ["out"] ∈ events o.
Proof.
  intros o. split; [reflexivity|].
  destruct (download_creates_missing_directories decimal model_X url_x ["out"] ["x.bin"]
              (response (Some "3")) ∅) as (_ & _ & Hdest).
  - discriminate.
  - intros q d _ _. rewrite lookup_empty. discriminate.
  - destruct Hdest as [Hdir Hmk]; [discriminate|].
    split; [exact Hdir | apply Hmk; reflexivity].
Defined.

(** [download_models.py out --dry-run] with out/x.bin of 100 bytes and a
    server that declares 50 bytes: every model is named, x.bin is looked for
    and probed, the GET request is sent, and nothing is written. *)
Lemma dry_run_writes_nothing_but_still_checks_witness :
  let server := server_of (Responds (response (Some "50")))
                          (Responds (response (Some "3"))) in
  let o := main decimal 4096 server catalog_X ["out"] false true false false false false
             false false false false (fs_with_x 100) in
  result o = Return tt
  /\ events o
     = [Print "Generative AI for Krita - Model download - v1.0";
        Print (newline +:+ "X");
        Print "Looking for out/x.bin";
        HeadRequest url_x;
        Print "X: Found - Local file size differs from server's - downloading";
        GetRequest url_x;
        Print ("Downloading " +:+ url_x);
        Print (newline +:+ "ControlNet");
        Print (newline +:+ "Checkpoint");
        Print (newline +:+ "Checkpoint XL")]
  /\ fs_after o = fs_with_x 100
  /\ Print (newline +:+ name model_X) ∈ events o
  /\ Print ("Looking for " +:+ path_str (["out"] ++ ["x.bin"])) ∈ events o
  /\ (HeadRequest url_x ∈ events o \/ GetRequest url_x ∈ events o).
Proof.
  intros server o.
  assert (Hres : result o = Return tt) by (vm_compute; reflexivity).
  destruct (dry_run_writes_nothing_but_still_checks decimal 4096 server catalog_X)
    as (Hquiet & _ & _ & _ & Hall).
  destruct (Hquiet ["out"] false false false false false false false false false
              (fs_with_x 100)) as [Hfs _].
  split; [exact Hres|]. split; [vm_compute; reflexivity|]. split; [exact Hfs|].
  apply (Hall ["out"] false false false false false false false false false
           (fs_with_x 100) Hres model_X ["x.bin"] url_x).
  - by_compute.
  - unfold exclusion_applies. cbn. intuition discriminate.
  - by_compute.
Defined.

(** C8, the counterexample.  [download_models.py out] in a working directory
    without [out]: the run succeeds, the script itself makes the destination
    directory [out] and writes out/x.bin into it. *)
Lemma destination_directory_is_created_by_the_script :
  let server := server_of (Fails ServerTimeoutError) (Responds (response (Some "3"))) in
  let a := command_line false false false false in
  let o := __main__ decimal 4096 server catalog_X a ∅ in
  node_at ∅ (args.destination a) = None
  /\ result o = Return tt
  /\ Mkdir (args.destination a) ∈ events o
  /\ fs_after o !! args.destination a = Some Dir
  /\ fs_after o !! ["out"; "x.bin"] = Some (File ["001"; "002"; "003"]%byte).
Proof.
  intros server a o.
  split; [reflexivity|]. split; [vm_compute; reflexivity|].
  split; [by_compute|]. split; vm_compute; reflexivity.
Qed.

(** C1, evaluated.  [__main__] calls [main] without [args.no_head_request]:
    the run is the same whatever the flag is, and with [--no-head-request]
    on the command line an existing file is still probed with a HEAD
    request. *)
Theorem no_head_request_flag_is_not_passed_on :
  (forall py_int dir_st_size server catalog a b fs,
      __main__ py_int dir_st_size server catalog (with_no_head_request b a) fs
      = __main__ py_int dir_st_size server catalog a fs)
  /\ let server := server_of (Responds (response (Some "100")))
                             (Responds (response (Some "100"))) in
     let a := command_line false false false true in
     let o := __main__ decimal 4096 server catalog_X a (fs_with_x 100) in
     args.no_head_request a = true
     /\ events o = [Print "Generative AI for Krita - Model download - v1.0";
                    HeadRequest url_x;
                    Print "X: Found - Local file size matches server's - skipping"].
Proof.
  split; [reflexivity|]. split; [reflexivity|]. vm_compute. reflexivity.
Qed.

(** ** Further properties of the script *)

Section MoreScriptFacts.
Variable py_int : string -> option Z.
Variable dir_st_size : Z.
Variable server : Server.
Variable catalog : resources.t.

Lemma found_false fs p :
  node_at fs p = None -> bool_decide (is_Some (node_at fs p)) = false.
Proof.
  intros H. apply bool_decide_eq_false_2. rewrite H. intros [x Hx]. discriminate.
Qed.

Lemma fetch_no_head model dry_run url target_file resp :
  emits_only (fun ev => forall u, ev <> HeadRequest u)
    (fetch py_int model dry_run url target_file resp).
Proof.
  unfold fetch, print. apply emits_only_bind; [apply emits_only_emit; discriminate|].
  intros _. destruct dry_run; cbn [negb]; [apply emits_only_ret|].
  apply emits_only_bind.
  - eapply emits_only_weaken; [|apply mkdir_from_only_mkdir].
    intros ev [q ->]. discriminate.
  - intros _. unfold write_body, open_wb, write, resp_content_length, int_.
    io_split; congruence.
Qed.

(** X1. A file that is not there yet is never probed: whatever the flags and
    whatever the server would answer to a HEAD request, the script sends the
    GET request and goes straight to the download, and outside a dry run the
    file then holds the body of the response. *)
Theorem missing_file_is_downloaded_without_probe
    (model : ModelResource) (destination : Path) (verbose dry_run no_head_request : bool)
    (filepath : Path) (url : string) (fs : FS) (resp : ClientResponse) :
  node_at fs (destination ++ filepath) = None ->
  on_get server url = Responds resp ->
  ok resp = true ->
  let target_file := destination ++ filepath in
  let o := download_file py_int dir_st_size server model destination verbose dry_run
             no_head_request (filepath, url) fs in
  let f := fetch py_int model dry_run url target_file resp fs in
  events o
  = (if verbose then [Print ("Looking for " +:+ path_str target_file)] else [])
    ++ [GetRequest url] ++ events f
  /\ fs_after o = fs_after f
  /\ result o = result f
  /\ (forall u, HeadRequest u ∉ events o)
  /\ (dry_run = false ->
      (forall q d, q <> [] -> q `prefix_of` parent target_file -> fs !! q <> Some (File d)) ->
      (forall s, content_length_header resp = Some s -> is_Some (py_int s)) ->
      stream_ok resp = true ->
      fs_after o !! target_file = Some (File (concat (chunks resp)))
      /\ result o = Return tt).
Proof.
  intros Hnone Hget Hok target_file o f. subst target_file.
  assert (Hc : check py_int dir_st_size server model destination verbose no_head_request
                 (filepath, url) fs
               = {| events :=
                      (if verbose
                       then [Print ("Looking for " +:+ path_str (destination ++ filepath))]
                       else [])
                      ++ [GetRequest url];
                    fs_after := fs;
                    result := Return (Some resp) |}).
  { rewrite check_run. cbn zeta. rewrite (found_false _ _ Hnone). cbn [andb].
    cbn [result events fs_after].
    rewrite (get_check_run _ _ _ _ _ _ _ _ _ _ Hget Hok), (found_false _ _ Hnone).
    reflexivity. }
  assert (Ho : o = {| events :=
                        (if verbose
                         then [Print ("Looking for " +:+ path_str (destination ++ filepath))]
                         else [])
                        ++ [GetRequest url] ++ events f;
                      fs_after := fs_after f;
                      result := result f |}).
  { subst o. rewrite download_file_run. cbn zeta. rewrite Hc.
    cbn [result events fs_after]. fold f. rewrite <- app_assoc. reflexivity. }
  rewrite Ho. cbn [events fs_after result].
  split; [reflexivity|]. split; [reflexivity|]. split; [reflexivity|]. split.
  - intros u Hin. apply elem_of_app in Hin as [Hin | Hin].
    { destruct verbose; [|apply elem_of_nil in Hin; exact Hin].
      apply list_elem_of_singleton in Hin. discriminate. }
    apply elem_of_cons in Hin as [Hin | Hin]; [discriminate|].
    pose proof (fetch_no_head model dry_run url (destination ++ filepath) resp fs) as Hf.
    rewrite Forall_forall in Hf. exact (Hf _ Hin u eq_refl).
  - intros -> Hfree Hlen Hstream. subst f.
    destruct (fetch_overwrites py_int model url (destination ++ filepath) resp fs)
      as [Hfile Hres].
    + rewrite Hnone. discriminate.
    + intros q d [Hq Hpre]%under_root. auto.
    + exact Hlen.
    + rewrite Hstream in Hres. auto.
Qed.

(** What lines 68-83 leave behind when they give no size. *)
Lemma probe_without_size model verbose nhr url target_file fs node :
  node_at fs target_file = Some node ->
  probe_gives_no_size nhr (on_head server url) ->
  exists heads,
    (if bool_decide (is_Some (node_at fs target_file)) && negb nhr
     then head_probe py_int dir_st_size server model verbose url target_file fs
     else {| events := []; fs_after := fs; result := Return (GoOn false) |})
    = {| events := heads; fs_after := fs; result := Return (GoOn false) |}.
Proof.
  intros Hnode Hprobe. rewrite (found_true _ _ _ Hnode). cbn [andb].
  destruct nhr; cbn [negb]; [eexists; reflexivity|].
  destruct Hprobe as [[=] | Hprobe].
  destruct (head_probe_no_size py_int dir_st_size server model verbose url target_file fs)
    as (lines & -> & _); [right; exact Hprobe|].
  eexists. reflexivity.
Qed.

(** X2. When the HEAD request gave no size (skipped, failed, or without
    Content-Length), the size is compared on the GET response instead: if its
    Content-Length is the size of the local file, the file is skipped after
    the GET request, and nothing is written, dry run or not. *)
Theorem get_size_match_skips_without_writing
    (model : ModelResource) (destination : Path) (verbose dry_run no_head_request : bool)
    (filepath : Path) (url : string) (fs : FS) (data : list byte)
    (resp : ClientResponse) (cl : string) :
  node_at fs (destination ++ filepath) = Some (File data) ->
  probe_gives_no_size no_head_request (on_head server url) ->
  on_get server url = Responds resp ->
  ok resp = true ->
  content_length_header resp = Some cl ->
  py_int cl = Some (Z.of_nat (length data)) ->
  let o := download_file py_int dir_st_size server model destination verbose dry_run
             no_head_request (filepath, url) fs in
  (exists before,
      events o
      = before ++ [GetRequest url;
                   Print (name model
                          +:+ ": Found - Local file size matches server's - skipping")])
  /\ Forall no_transfer (events o)
  /\ fs_after o = fs
  /\ result o = Return tt.
Proof.
  intros Hnode Hprobe Hget Hok Hcl Hint o.
  destruct (probe_without_size model verbose no_head_request url
              (destination ++ filepath) fs _ Hnode Hprobe) as [heads Hp].
  assert (Hc : check py_int dir_st_size server model destination verbose no_head_request
                 (filepath, url) fs
               = {| events :=
                      (if verbose
                       then [Print ("Looking for " +:+ path_str (destination ++ filepath))]
                       else [])
                      ++ heads ++ [GetRequest url; Print (msg_matches model)];
                    fs_after := fs;
                    result := Return None |}).
  { rewrite check_run. cbn zeta. rewrite Hp. cbn [result events fs_after].
    rewrite (get_check_run _ _ _ _ _ _ _ _ _ _ Hget Hok), (found_true _ _ _ Hnode), Hcl.
    cbn [andb negb is_None]. rewrite andb_false_r. cbn zeta.
    rewrite (is_size_equal_run _ _ _ _ _ _ _ _ _ Hnode Hint), Z.eqb_refl.
    reflexivity. }
  assert (Ho : o = {| events :=
                        (if verbose
                         then [Print ("Looking for " +:+ path_str (destination ++ filepath))]
                         else [])
                        ++ heads ++ [GetRequest url; Print (msg_matches model)];
                      fs_after := fs;
                      result := Return tt |}).
  { subst o. rewrite download_file_run. cbn zeta. rewrite Hc.
    cbn [result events fs_after]. rewrite app_nil_r. reflexivity. }
  split; [|split; [|split]].
  - rewrite Ho. cbn [events]. eexists. rewrite app_assoc. reflexivity.
  - rewrite Ho. cbn [events].
    pose proof (check_no_transfer py_int dir_st_size server model destination verbose
                  no_head_request (filepath, url) fs) as Hquiet.
    rewrite Hc in Hquiet. exact Hquiet.
  - rewrite Ho. reflexivity.
  - rewrite Ho. reflexivity.
Qed.

(** X3. In the same situation a Content-Length on the GET response that
    differs from the local size leads to the download: the events after the
    GET request are the "differs" line when [verbose] and those of the
    download, and outside a dry run the file is replaced by the body. *)
Theorem get_size_mismatch_downloads
    (model : ModelResource) (destination : Path) (verbose dry_run no_head_request : bool)
    (filepath : Path) (url : string) (fs : FS) (data : list byte)
    (resp : ClientResponse) (cl : string) (n : Z) :
  node_at fs (destination ++ filepath) = Some (File data) ->
  probe_gives_no_size no_head_request (on_head server url) ->
  on_get server url = Responds resp ->
  ok resp = true ->
  content_length_header resp = Some cl ->
  py_int cl = Some n ->
  n <> Z.of_nat (length data) ->
  let target_file := destination ++ filepath in
  let o := download_file py_int dir_st_size server model destination verbose dry_run
             no_head_request (filepath, url) fs in
  let f := fetch py_int model dry_run url target_file resp fs in
  (exists before,
      events o
      = before
        ++ [GetRequest url]
        ++ (if verbose
            then [Print (name model
                         +:+ ": Found - Local file size differs from server's - downloading")]
            else [])
        ++ events f)
  /\ fs_after o = fs_after f
  /\ result o = result f
  /\ (dry_run = false ->
      (forall q d, q <> [] -> q `prefix_of` parent target_file -> fs !! q <> Some (File d)) ->
      fs_after o !! target_file = Some (File (concat (chunks resp)))).
Proof.
  intros Hnode Hprobe Hget Hok Hcl Hint Hne target_file o f. subst target_file.
  destruct (probe_without_size model verbose no_head_request url
              (destination ++ filepath) fs _ Hnode Hprobe) as [heads Hp].
  assert (Hc : check py_int dir_st_size server model destination verbose no_head_request
                 (filepath, url) fs
               = {| events :=
                      (if verbose
                       then [Print ("Looking for " +:+ path_str (destination ++ filepath))]
                       else [])
                      ++ heads ++ GetRequest url
                      :: (if verbose then [Print (msg_differs model)] else []);
                    fs_after := fs;
                    result := Return (Some resp) |}).
  { rewrite check_run. cbn zeta. rewrite Hp. cbn [result events fs_after].
    rewrite (get_check_run _ _ _ _ _ _ _ _ _ _ Hget Hok), (found_true _ _ _ Hnode), Hcl.
    cbn [andb negb is_None]. rewrite andb_false_r. cbn zeta.
    rewrite (is_size_equal_run _ _ _ _ _ _ _ _ _ Hnode Hint).
    apply Z.eqb_neq in Hne. rewrite Hne. reflexivity. }
  subst o. rewrite download_file_run. cbn zeta. rewrite Hc.
  cbn [result events fs_after]. fold f.
  split; [|split; [reflexivity|split; [reflexivity|]]].
  - eexists ((if verbose then _ else []) ++ heads). unfold msg_differs.
    rewrite <- !app_assoc. reflexivity.
  - intros -> Hfree. subst f.
    apply fetch_overwrites.
    + rewrite Hnode. discriminate.
    + intros q d [Hq Hpre]%under_root. auto.
    + intros s Hs. rewrite Hcl in Hs. injection Hs as <-. rewrite Hint. eauto.
Qed.

(** X4. The probe recovers from ClientResponseError and ServerTimeoutError
    only: any other exception of the HEAD request (a refused connection, say)
    ends the download of the file there, with no GET request and nothing
    written. *)
Theorem other_probe_failure_is_not_recovered
    (model : ModelResource) (destination : Path) (verbose dry_run : bool)
    (filepath : Path) (url : string) (fs : FS) (node : Node) (e : exn) :
  node_at fs (destination ++ filepath) = Some node ->
  on_head server url = Fails e ->
  e <> ClientResponseError ->
  e <> ServerTimeoutError ->
  download_file py_int dir_st_size server model destination verbose dry_run false
    (filepath, url) fs
  = {| events :=
         (if verbose
          then [Print ("Looking for " +:+ path_str (destination ++ filepath))] else [])
         ++ [HeadRequest url];
       fs_after := fs;
       result := Raise e |}.
Proof.
  intros Hnode Hhead Hne1 Hne2.
  rewrite download_file_run. cbn zeta. rewrite check_run. cbn zeta.
  rewrite (found_true _ _ _ Hnode). cbn [andb negb].
  assert (Hp : head_probe py_int dir_st_size server model verbose url
                 (destination ++ filepath) fs
               = {| events := [HeadRequest url]; fs_after := fs; result := Raise e |}).
  { unfold head_probe. rewrite emit_bind, Hhead.
    destruct e; try contradiction; reflexivity. }
  rewrite Hp. reflexivity.
Qed.

(** *** Which requests a run sends *)

Lemma emits_only_for_each_in {A} φ (xs : list A) body :
  (forall x, x ∈ xs -> emits_only φ (body x)) -> emits_only φ (for_each xs body).
Proof.
  induction xs as [|x xs IH]; intros H; cbn [for_each].
  - apply emits_only_ret.
  - apply emits_only_bind.
    + apply H, list_elem_of_here.
    + intros _. apply IH. intros y Hy. apply H, list_elem_of_further, Hy.
Qed.

Lemma fetch_no_request model dry_run url target_file resp :
  emits_only (fun ev => is_request ev = false)
    (fetch py_int model dry_run url target_file resp).
Proof.
  unfold fetch, print. apply emits_only_bind; [apply emits_only_emit; reflexivity|].
  intros _. destruct dry_run; cbn [negb]; [apply emits_only_ret|].
  apply emits_only_bind.
  - eapply emits_only_weaken; [|apply mkdir_from_only_mkdir].
    intros ev [q ->]. reflexivity.
  - intros _. unfold write_body, open_wb, write, resp_content_length, int_.
    io_split; reflexivity.
Qed.

Lemma check_requests_own_url model destination verbose nhr filepath url :
  emits_only (fun ev => forall u, ev = HeadRequest u \/ ev = GetRequest u -> u = url)
    (check py_int dir_st_size server model destination verbose nhr (filepath, url)).
Proof.
  unfold check, get_check, head_probe, is_size_equal, path_exists, stat_st_size,
    int_, print.
  io_split;
    match goal with
    | H : _ \/ _ |- _ => destruct H; congruence
    end.
Qed.

Lemma download_file_requests_own_url model destination verbose dry_run nhr filepath url :
  emits_only (fun ev => forall u, ev = HeadRequest u \/ ev = GetRequest u -> u = url)
    (download_file py_int dir_st_size server model destination verbose dry_run nhr
       (filepath, url)).
Proof.
  unfold download_file. apply emits_only_bind; [apply check_requests_own_url|].
  intros [resp|]; [|apply emits_only_ret].
  eapply emits_only_weaken; [|apply fetch_no_request].
  intros ev Hev u [-> | ->]; discriminate.
Qed.

(** X6. A run only ever sends requests for files of the models it selected:
    the URL of every HEAD or GET request of [main] is listed in [files] of a
    model of the catalogue in use that no exclusion applies to. *)
Theorem requests_only_for_selected_files
    (destination : Path)
    (verbose dry_run no_sd15 no_sdxl no_upscalers no_checkpoints no_controlnet
     prefetch minimal no_head_request : bool) (fs : FS) (u : string) :
  let models := if minimal then required_models catalog else resources.all_models catalog in
  let o := main py_int dir_st_size server catalog destination verbose dry_run
             no_sd15 no_sdxl no_upscalers no_checkpoints no_controlnet prefetch
             minimal no_head_request fs in
  HeadRequest u ∈ events o \/ GetRequest u ∈ events o ->
  exists model filepath,
    model ∈ models
    /\ ~ exclusion_applies no_sd15 no_sdxl no_upscalers no_checkpoints no_controlnet
         prefetch model
    /\ (filepath, u) ∈ files model.
Proof.
  intros models o Hreq.
  set (φ := fun ev : Event =>
              forall u, ev = HeadRequest u \/ ev = GetRequest u ->
                exists model filepath,
                  model ∈ models
                  /\ ~ exclusion_applies no_sd15 no_sdxl no_upscalers no_checkpoints
                       no_controlnet prefetch model
                  /\ (filepath, u) ∈ files model).
  assert (Hall : Forall φ (events o)).
  { subst o. unfold main. apply emits_only_bind.
    { apply emits_only_emit. intros v [? | ?]; discriminate. }
    intros _ fs'. cbn zeta. fold models. rewrite main_loop_selected.
    apply emits_only_for_each_in. intros model [Hin Hex]%elem_of_selected.
    apply emits_only_bind.
    { apply emits_only_when, emits_only_emit. intros v [? | ?]; discriminate. }
    intros _. unfold download. apply emits_only_for_each_in.
    intros [filepath url] Hfile.
    eapply emits_only_weaken; [|apply download_file_requests_own_url].
    intros ev Hev v Hv. exists model, filepath. rewrite (Hev v Hv).
    split; [exact Hin|]. split; [|exact Hfile].
    rewrite <- excluded_spec. congruence. }
  rewrite Forall_forall in Hall.
  destruct Hreq as [Hin | Hin]; apply (Hall _ Hin); auto.
Qed.

Lemma requests_app evs1 evs2 : requests (evs1 ++ evs2) = requests evs1 ++ requests evs2.
Proof. apply List.filter_app. Qed.

Lemma requests_none evs :
  Forall (fun ev => is_request ev = false) evs -> requests evs = [].
Proof.
  induction 1 as [|ev evs Hev _ IH]; [reflexivity|].
  unfold requests in *. cbn. rewrite Hev. exact IH.
Qed.

Lemma head_probe_requests model verbose url target_file fs :
  requests (events (head_probe py_int dir_st_size server model verbose url target_file fs))
  = [HeadRequest url].
Proof.
  unfold head_probe. rewrite emit_bind. cbn [events].
  change (requests (HeadRequest url :: ?l)) with (HeadRequest url :: requests l).
  f_equal. apply requests_none.
  match goal with
  | |- Forall _ (events (?m fs)) =>
      assert (Hm : emits_only (fun ev => is_request ev = false) m); [|apply Hm]
  end.
  unfold is_size_equal, stat_st_size, int_, print. io_split; reflexivity.
Qed.

Lemma get_check_requests model verbose url target_file compared_size fs :
  requests (events (get_check py_int dir_st_size server model verbose url target_file
                      compared_size fs))
  = [GetRequest url].
Proof.
  unfold get_check. rewrite emit_bind. cbn [events].
  change (requests (GetRequest url :: ?l)) with (GetRequest url :: requests l).
  f_equal. apply requests_none.
  match goal with
  | |- Forall _ (events (?m fs)) =>
      assert (Hm : emits_only (fun ev => is_request ev = false) m); [|apply Hm]
  end.
  unfold is_size_equal, path_exists, stat_st_size, int_, print. io_split; reflexivity.
Qed.

(** X7. For one file the script sends at most one HEAD request and at most
    one GET request, both for the URL of the file and in that order.  The
    HEAD request is sent exactly when the file exists and [no_head_request]
    is off; without it the GET request is always sent. *)
Theorem one_probe_then_one_get
    (model : ModelResource) (destination : Path) (verbose dry_run no_head_request : bool)
    (filepath : Path) (url : string) (fs : FS) :
  let probed := bool_decide (is_Some (node_at fs (destination ++ filepath)))
                && negb no_head_request in
  let o := download_file py_int dir_st_size server model destination verbose dry_run
             no_head_request (filepath, url) fs in
  exists gets,
    requests (events o) = (if probed then [HeadRequest url] else []) ++ gets
    /\ (gets = [] \/ gets = [GetRequest url])
    /\ (probed = false -> gets = [GetRequest url]).
Proof.
  intros probed o. subst o. rewrite download_file_run. cbn zeta.
  rewrite check_run. cbn zeta. fold probed.
  assert (Hlooking : requests (if verbose
                               then [Print ("Looking for "
                                            +:+ path_str (destination ++ filepath))]
                               else []) = []) by (destruct verbose; reflexivity).
  assert (Hfetch : forall resp fs',
    requests (events (fetch py_int model dry_run url (destination ++ filepath) resp fs'))
    = []).
  { intros resp fs'. apply requests_none, fetch_no_request. }
  destruct probed.
  - pose proof (head_probe_requests model verbose url (destination ++ filepath) fs) as Hp.
    destruct (result (head_probe _ _ _ _ _ _ _ fs)) as [[|compared]|e];
      cbn [result events fs_after].
    + exists []. rewrite app_nil_r, requests_app, Hlooking, Hp.
      split; [reflexivity | split; [auto | discriminate]].
    + match goal with
      | |- context [get_check _ _ _ ?m ?v ?u ?t ?c ?s] =>
          pose proof (get_check_requests m v u t c s) as Hg;
          destruct (result (get_check py_int dir_st_size server m v u t c s)) as [[r|]|e]
      end; cbn [result events fs_after];
        exists [GetRequest url];
        rewrite ?app_nil_r, !requests_app, ?Hfetch, Hlooking, Hp, Hg, ?app_nil_r;
        (split; [reflexivity | split; [auto | discriminate]]).
    + exists []. rewrite requests_app, Hlooking, Hp.
      split; [reflexivity | split; [auto | discriminate]].
  - cbn [result events fs_after].
    match goal with
    | |- context [get_check _ _ _ ?m ?v ?u ?t ?c ?s] =>
        pose proof (get_check_requests m v u t c s) as Hg;
        destruct (result (get_check py_int dir_st_size server m v u t c s)) as [[r|]|e]
    end; cbn [result events fs_after];
      exists [GetRequest url];
      rewrite ?app_nil_r, !requests_app, ?Hfetch, Hlooking, Hg, ?app_nil_r;
      (split; [reflexivity | split; [auto | reflexivity]]).
Qed.

(** *** Exceptions *)

Lemma for_each_app {A} (xs ys : list A) body fs :
  for_each (xs ++ ys) body fs
  = match result (for_each xs body fs) with
    | Return _ =>
        {| events := events (for_each xs body fs)
                     ++ events (for_each ys body (fs_after (for_each xs body fs)));
           fs_after := fs_after (for_each ys body (fs_after (for_each xs body fs)));
           result := result (for_each ys body (fs_after (for_each xs body fs))) |}
    | Raise e =>
        {| events := events (for_each xs body fs);
           fs_after := fs_after (for_each xs body fs);
           result := Raise e |}
    end.
Proof.
  revert fs. induction xs as [|x xs IH]; intros fs.
  - cbn. destruct (for_each ys body fs); reflexivity.
  - cbn [for_each app]. rewrite !bind_run.
    destruct (result (body x fs)) as [[]|e]; [|reflexivity].
    rewrite IH. cbn [result events fs_after].
    destruct (result (for_each xs body _)); cbn [result events fs_after];
      rewrite ?app_assoc; reflexivity.
Qed.

Lemma for_each_raise {A} (x : A) (ys : list A) body fs e :
  result (body x fs) = Raise e ->
  for_each (x :: ys) body fs
  = {| events := events (body x fs); fs_after := fs_after (body x fs); result := Raise e |}.
Proof. intros H. cbn [for_each]. rewrite bind_run, H. reflexivity. Qed.

Lemma selected_app f1 f2 f3 f4 f5 f6 xs ys :
  selected f1 f2 f3 f4 f5 f6 (xs ++ ys)
  = selected f1 f2 f3 f4 f5 f6 xs ++ selected f1 f2 f3 f4 f5 f6 ys.
Proof.
  induction xs as [|x xs IH]; [reflexivity|].
  cbn [app selected]. destruct (excluded _ _ _ _ _ _ x); rewrite IH; reflexivity.
Qed.

Lemma model_step_run model destination verbose dry_run nhr fs :
  (when verbose (print (newline +:+ name model)) ;;
   download py_int dir_st_size server model destination verbose dry_run nhr) fs
  = {| events := (if verbose then [Print (newline +:+ name model)] else [])
                 ++ events (download py_int dir_st_size server model destination verbose
                              dry_run nhr fs);
       fs_after := fs_after (download py_int dir_st_size server model destination verbose
                               dry_run nhr fs);
       result := result (download py_int dir_st_size server model destination verbose
                           dry_run nhr fs) |}.
Proof.
  destruct verbose; cbn [when]; [reflexivity|].
  rewrite ret_bind. destruct (download _ _ _ _ _ _ _ _ fs); reflexivity.
Qed.

(** X8. Nothing in the script catches an exception of a download: when the
    download of a model raises, whatever the exception, the run ends with it
    and the models after it are not looked at; likewise within a model for
    the files after the one that raised. *)
Theorem exception_ends_the_run
    (destination : Path)
    (verbose dry_run no_sd15 no_sdxl no_upscalers no_checkpoints no_controlnet
     prefetch no_head_request : bool) (e : exn) :
  (forall (before after : list ModelResource) (model : ModelResource) (fs : FS),
      excluded no_sd15 no_sdxl no_upscalers no_checkpoints no_controlnet prefetch model
      = false ->
      let o1 := main_loop py_int dir_st_size server before destination verbose dry_run
                  no_sd15 no_sdxl no_upscalers no_checkpoints no_controlnet prefetch
                  no_head_request fs in
      let o2 := download py_int dir_st_size server model destination verbose dry_run
                  no_head_request (fs_after o1) in
      result o1 = Return tt ->
      result o2 = Raise e ->
      main_loop py_int dir_st_size server (before ++ model :: after) destination
        verbose dry_run no_sd15 no_sdxl no_upscalers no_checkpoints no_controlnet
        prefetch no_head_request fs
      = {| events := events o1
                     ++ (if verbose then [Print (newline +:+ name model)] else [])
                     ++ events o2;
           fs_after := fs_after o2;
           result := Raise e |})
  /\ (forall (model : ModelResource) (before after : list (Path * string))
             (item : Path * string) (fs : FS),
        files model = before ++ item :: after ->
        let body := download_file py_int dir_st_size server model destination verbose
                      dry_run no_head_request in
        let o1 := for_each before body fs in
        let o2 := body item (fs_after o1) in
        result o1 = Return tt ->
        result o2 = Raise e ->
        download py_int dir_st_size server model destination verbose dry_run
          no_head_request fs
        = {| events := events o1 ++ events o2;
             fs_after := fs_after o2;
             result := Raise e |}).
Proof.
  split.
  - intros before after model fs Hex o1 o2 Hres1 Hres2.
    rewrite main_loop_selected, selected_app. cbn [selected]. rewrite Hex.
    rewrite for_each_app.
    rewrite <- (main_loop_selected py_int dir_st_size server before destination verbose
                  dry_run no_sd15 no_sdxl no_upscalers no_checkpoints no_controlnet
                  prefetch no_head_request fs).
    fold o1. rewrite Hres1.
    assert (Hstep : result ((when verbose (print (newline +:+ name model)) ;;
                             download py_int dir_st_size server model destination verbose
                               dry_run no_head_request) (fs_after o1)) = Raise e).
    { rewrite model_step_run. exact Hres2. }
    rewrite (for_each_raise model _ _ _ e Hstep), model_step_run.
    reflexivity.
  - intros model before after item fs Hfiles body o1 o2 Hres1 Hres2.
    unfold download. rewrite Hfiles, for_each_app. fold body. fold o1.
    rewrite Hres1. fold o2. rewrite (for_each_raise item after body _ e Hres2).
    reflexivity.
Qed.

(** *** What a download writes *)

Lemma progress_total_app evs1 evs2 :
  progress_total (evs1 ++ evs2) = progress_total evs1 + progress_total evs2.
Proof.
  induction evs1 as [|ev evs1 IH]; [reflexivity|].
  destruct ev; cbn; rewrite IH; lia.
Qed.

Lemma bytes_written_app evs1 evs2 :
  bytes_written (evs1 ++ evs2) = bytes_written evs1 + bytes_written evs2.
Proof.
  induction evs1 as [|ev evs1 IH]; [reflexivity|].
  destruct ev; cbn; rewrite IH; lia.
Qed.

Lemma mkdir_from_no_bytes base rest fs :
  progress_total (events (mkdir_from base rest fs)) = 0
  /\ bytes_written (events (mkdir_from base rest fs)) = 0.
Proof.
  pose proof (mkdir_from_only_mkdir base rest fs) as H.
  induction H as [|ev evs [q ->] _ IH]; [split; reflexivity|]. exact IH.
Qed.

Lemma write_loop_events p (body : list (list byte)) fs data :
  fs !! p = Some (File data) ->
  let o := for_each body (fun chunk =>
             write p chunk ;; emit (ProgressUpdate (Z.of_nat (length chunk)))) fs in
  progress_total (events o) = Z.of_nat (length (concat body))
  /\ bytes_written (events o) = Z.of_nat (length (concat body)).
Proof.
  revert fs data. induction body as [|chunk body IH]; intros fs data Hp o; subst o.
  - split; reflexivity.
  - cbn [for_each]. rewrite bind_run.
    assert (Hw : (write p chunk ;; emit (ProgressUpdate (Z.of_nat (length chunk)))) fs
                 = {| events := [WriteChunk p chunk; ProgressUpdate (Z.of_nat (length chunk))];
                      fs_after := <[p := File (data ++ chunk)]> fs;
                      result := Return tt |}).
    { unfold write. rewrite bind_run, get_fs_bind, Hp, put_fs_bind. reflexivity. }
    rewrite Hw. cbn [result fs_after events].
    destruct (IH (<[p := File (data ++ chunk)]> fs) (data ++ chunk)) as [Hprog Hbytes].
    { apply lookup_insert_eq. }
    cbn [concat app progress_total bytes_written].
    rewrite Hprog, Hbytes, length_app. lia.
Qed.

Lemma open_wb_ok p fs :
  result (open_wb p fs) = Return tt ->
  open_wb p fs
  = {| events := [OpenWrite p]; fs_after := <[p := File []]> fs; result := Return tt |}.
Proof.
  unfold open_wb. rewrite get_fs_bind.
  destruct (node_at fs p) as [[d|]|], (node_at fs (parent p)) as [[d'|]|];
    cbn; intros H; try discriminate H; reflexivity.
Qed.

Lemma write_body_success model target_file resp fs :
  result (write_body py_int model target_file resp fs) = Return tt ->
  write_body py_int model target_file resp fs
  = let loop := for_each (chunks resp) (fun chunk =>
                  write target_file chunk ;;
                  emit (ProgressUpdate (Z.of_nat (length chunk))))
                  (<[target_file := File []]> fs) in
    {| events := OpenWrite target_file
                 :: ProgressBar (name model) (content_length_header resp ≫= py_int)
                 :: events loop;
       fs_after := fs_after loop;
       result := Return tt |}.
Proof.
  unfold write_body. rewrite bind_run.
  destruct (result (open_wb target_file fs)) as [[]|e] eqn:Hopen; [|cbn; discriminate].
  rewrite (open_wb_ok _ _ Hopen). cbn [result events fs_after].
  set (fs2 := <[target_file := File []]> fs).
  assert (Hlen : resp_content_length py_int resp fs2
                 = {| events := []; fs_after := fs2;
                      result := match content_length_header resp ≫= py_int with
                                | Some n => Return (Some n)
                                | None =>
                                    if is_None (content_length_header resp)
                                    then Return None else Raise ValueError
                                end |}).
  { unfold resp_content_length, int_.
    destruct (content_length_header resp) as [s|]; [|reflexivity].
    cbn. destruct (py_int s); reflexivity. }
  rewrite bind_run, Hlen. cbn [result events fs_after]. clear Hlen.
  destruct (content_length_header resp ≫= py_int) as [n|] eqn:Htotal.
  - rewrite emit_bind, bind_run. cbn [result events fs_after].
    destruct (result (for_each _ _ fs2)) as [[]|e]; cbn [result events fs_after];
      [|discriminate].
    destruct (stream_ok resp); cbn; [|discriminate].
    intros _. rewrite app_nil_r. reflexivity.
  - destruct (is_None (content_length_header resp)); [|cbn; discriminate].
    rewrite emit_bind, bind_run. cbn [result events fs_after].
    destruct (result (for_each _ _ fs2)) as [[]|e]; cbn [result events fs_after];
      [|discriminate].
    destruct (stream_ok resp); cbn; [|discriminate].
    intros _. rewrite app_nil_r. reflexivity.
Qed.

(** X9. A download that completes has advanced the progress bar by exactly
    the bytes it wrote, which are the bytes of the file it leaves: the body
    of the response.  The bar was created with the name of the model and,
    as total, the Content-Length of the GET response when there is one. *)
Theorem progress_accounts_for_every_byte
    (model : ModelResource) (url : string) (target_file : Path)
    (resp : ClientResponse) (fs : FS) :
  let o := fetch py_int model false url target_file resp fs in
  result o = Return tt ->
  fs_after o !! target_file = Some (File (concat (chunks resp)))
  /\ progress_total (events o) = Z.of_nat (length (concat (chunks resp)))
  /\ bytes_written (events o) = Z.of_nat (length (concat (chunks resp)))
  /\ ProgressBar (name model) (content_length_header resp ≫= py_int) ∈ events o.
Proof.
  intros o. subst o. rewrite fetch_real_run. cbn zeta. unfold mkdir_parents.
  destruct (mkdir_from_no_bytes [] (parent target_file) fs) as [Hm1 Hm2].
  destruct (result (mkdir_from [] (parent target_file) fs)) as [[]|e];
    cbn [result events fs_after]; [|discriminate].
  set (fs1 := fs_after (mkdir_from [] (parent target_file) fs)).
  intros Hok. rewrite (write_body_success _ _ _ _ Hok). cbn [result events fs_after].
  assert (Hfile : <[target_file := File []]> fs1 !! target_file = Some (File []))
    by apply lookup_insert_eq.
  destruct (write_loop target_file (chunks resp) _ [] Hfile) as [_ Hfs].
  destruct (write_loop_events target_file (chunks resp) _ [] Hfile) as [Hprog Hbytes].
  cbn zeta in Hfs, Hprog, Hbytes.
  split; [exact Hfs|]. split; [|split].
  - cbn [progress_total]. rewrite progress_total_app, Hm1.
    cbn [progress_total]. rewrite Hprog. lia.
  - cbn [bytes_written]. rewrite bytes_written_app, Hm2.
    cbn [bytes_written]. rewrite Hbytes. lia.
  - apply list_elem_of_further, elem_of_app. right.
    apply list_elem_of_further, list_elem_of_here.
Qed.

(** X10. When the body stream of the GET response breaks, the exception is
    passed on and the file is left holding what had arrived: the script
    neither removes nor restores it. *)
Theorem broken_stream_leaves_partial_file
    (model : ModelResource) (url : string) (target_file : Path)
    (resp : ClientResponse) (fs : FS) :
  stream_ok resp = false ->
  node_at fs target_file <> Some Dir ->
  (forall q d, q <> [] -> q `prefix_of` parent target_file -> fs !! q <> Some (File d)) ->
  (forall s, content_length_header resp = Some s -> is_Some (py_int s)) ->
  let o := fetch py_int model false url target_file resp fs in
  result o = Raise ClientConnectionError
  /\ fs_after o !! target_file = Some (File (concat (chunks resp))).
Proof.
  intros Hstream Hnode Hfree Hlen o. subst o.
  destruct (fetch_overwrites py_int model url target_file resp fs Hnode) as [Hfile Hres].
  - intros q d [Hq Hpre]%under_root. auto.
  - exact Hlen.
  - rewrite Hstream in Hres. auto.
Qed.

(** *** Where a run writes *)





(** *** Running twice *)

Lemma download_file_missing_run model destination verbose dry_run nhr filepath url fs resp :
  node_at fs (destination ++ filepath) = None ->
  on_get server url = Responds resp ->
  ok resp = true ->
  download_file py_int dir_st_size server model destination verbose dry_run nhr
    (filepath, url) fs
  = let f := fetch py_int model dry_run url (destination ++ filepath) resp fs in
    {| events := (if verbose
                  then [Print ("Looking for " +:+ path_str (destination ++ filepath))]
                  else [])
                 ++ [GetRequest url] ++ events f;
       fs_after := fs_after f;
       result := result f |}.
Proof.
  intros Hnone Hget Hok.
  rewrite download_file_run. cbn zeta. rewrite check_run. cbn zeta.
  rewrite (found_false _ _ Hnone). cbn [andb result events fs_after].
  rewrite (get_check_run _ _ _ _ _ _ _ _ _ _ Hget Hok), (found_false _ _ Hnone).
  cbn [andb result events fs_after]. rewrite <- !app_assoc. reflexivity.
Qed.

Lemma download_file_head_match_run
    model destination verbose dry_run filepath url fs data resp cl :
  node_at fs (destination ++ filepath) = Some (File data) ->
  on_head server url = Responds resp ->
  ok resp = true ->
  content_length_header resp = Some cl ->
  py_int cl = Some (Z.of_nat (length data)) ->
  download_file py_int dir_st_size server model destination verbose dry_run false
    (filepath, url) fs
  = {| events := (if verbose
                  then [Print ("Looking for " +:+ path_str (destination ++ filepath))]
                  else [])
                 ++ [HeadRequest url; Print (msg_matches model)];
       fs_after := fs;
       result := Return tt |}.
Proof.
  intros Hnode Hhead Hok Hcl Hint.
  rewrite download_file_run. cbn zeta. rewrite check_run. cbn zeta.
  rewrite (found_true _ _ _ Hnode). cbn [andb negb].
  rewrite (head_probe_sized _ _ _ _ _ _ _ _ _ _ _ _ Hhead Hok Hcl Hnode Hint), Z.eqb_refl.
  cbn [result events fs_after]. rewrite app_nil_r. reflexivity.
Qed.

(** X12. Downloading is idempotent against a consistent server: once a
    missing file has been downloaded completely, and the HEAD response
    declares the length of the body that was sent, downloading the same file
    again stops after the HEAD request, with no GET request and the file
    system as the first download left it. *)
Theorem second_download_is_skipped
    (model : ModelResource) (destination : Path) (verbose no_head_request : bool)
    (verbose' dry_run' : bool) (filepath : Path) (url : string) (fs : FS)
    (gresp hresp : ClientResponse) (cl : string) :
  node_at fs (destination ++ filepath) = None ->
  (forall q d, q <> [] -> q `prefix_of` parent (destination ++ filepath) ->
               fs !! q <> Some (File d)) ->
  on_get server url = Responds gresp ->
  ok gresp = true ->
  stream_ok gresp = true ->
  (forall s, content_length_header gresp = Some s -> is_Some (py_int s)) ->
  on_head server url = Responds hresp ->
  ok hresp = true ->
  content_length_header hresp = Some cl ->
  py_int cl = Some (Z.of_nat (length (concat (chunks gresp)))) ->
  let target_file := destination ++ filepath in
  let o1 := download_file py_int dir_st_size server model destination verbose false
              no_head_request (filepath, url) fs in
  let o2 := download_file py_int dir_st_size server model destination verbose' dry_run'
              false (filepath, url) (fs_after o1) in
  result o1 = Return tt
  /\ fs_after o1 !! target_file = Some (File (concat (chunks gresp)))
  /\ events o2
     = (if verbose' then [Print ("Looking for " +:+ path_str target_file)] else [])
       ++ [HeadRequest url;
           Print (name model +:+ ": Found - Local file size matches server's - skipping")]
  /\ fs_after o2 = fs_after o1
  /\ result o2 = Return tt.
Proof.
  intros Hnone Hfree Hget Hgok Hstream Hlen Hhead Hhok Hcl Hint target_file o1 o2.
  subst target_file.
  assert (H1 : result o1 = Return tt
               /\ fs_after o1 !! (destination ++ filepath)
                  = Some (File (concat (chunks gresp)))).
  { subst o1. rewrite (download_file_missing_run _ _ _ _ _ _ _ _ _ Hnone Hget Hgok).
    cbn [result fs_after].
    destruct (fetch_overwrites py_int model url (destination ++ filepath) gresp fs)
      as [Hfile Hres].
    - rewrite Hnone. discriminate.
    - intros q d [Hq Hpre]%under_root. auto.
    - exact Hlen.
    - rewrite Hstream in Hres. auto. }
  destruct H1 as [Hres1 Hfile1].
  assert (Hnode1 : node_at (fs_after o1) (destination ++ filepath)
                   = Some (File (concat (chunks gresp)))).
  { destruct (destination ++ filepath) as [|c p] eqn:E; [discriminate Hnone|].
    exact Hfile1. }
  subst o2.
  rewrite (download_file_head_match_run _ _ _ _ _ _ _ _ _ _ Hnode1 Hhead Hhok Hcl Hint).
  unfold msg_matches. auto.
Qed.

(** *** What [verbose] changes *)

Lemma actions_app evs1 evs2 : actions (evs1 ++ evs2) = actions evs1 ++ actions evs2.
Proof. apply List.filter_app. Qed.

Lemma same_refl {A} (o : Outcome A) : same_but_for_prints o o.
Proof. repeat split. Qed.

Lemma same_bind {A B} (m1 m2 : IO A) (k1 k2 : A -> IO B) fs :
  same_but_for_prints (m1 fs) (m2 fs) ->
  (forall a fs', same_but_for_prints (k1 a fs') (k2 a fs')) ->
  same_but_for_prints ((m1 ≫= k1) fs) ((m2 ≫= k2) fs).
Proof.
  intros (Hev & Hfs & Hres) Hk. rewrite !bind_run, Hres, Hfs.
  destruct (result (m2 fs)) as [a|e]; unfold same_but_for_prints;
    cbn [events fs_after result].
  - destruct (Hk a (fs_after (m2 fs))) as (Hev' & Hfs' & Hres').
    rewrite !actions_app, Hev, Hev'. auto.
  - auto.
Qed.

Lemma same_when_print v1 v2 line fs :
  same_but_for_prints (when v1 (print line) fs) (when v2 (print line) fs).
Proof. destruct v1, v2; repeat split. Qed.

Lemma same_for_each {A} (xs : list A) (body1 body2 : A -> IO unit) :
  (forall x, x ∈ xs -> forall fs, same_but_for_prints (body1 x fs) (body2 x fs)) ->
  forall fs, same_but_for_prints (for_each xs body1 fs) (for_each xs body2 fs).
Proof.
  induction xs as [|x xs IH]; intros H fs; cbn [for_each]; [apply same_refl|].
  apply same_bind.
  - apply H, list_elem_of_here.
  - intros _ fs'. apply IH. intros y Hy. apply H, list_elem_of_further, Hy.
Qed.

Lemma is_size_equal_same model v1 v2 content_length target_file fs :
  same_but_for_prints
    (is_size_equal py_int dir_st_size model v1 content_length target_file fs)
    (is_size_equal py_int dir_st_size model v2 content_length target_file fs).
Proof.
  unfold is_size_equal. apply same_bind; [apply same_refl|].
  intros size fs1. apply same_bind; [apply same_refl|].
  intros n fs2. destruct (n =? size)%Z; [apply same_refl|].
  apply same_bind; [apply same_when_print|]. intros _ fs3. apply same_refl.
Qed.

Lemma head_probe_same model v1 v2 url target_file fs :
  same_but_for_prints
    (head_probe py_int dir_st_size server model v1 url target_file fs)
    (head_probe py_int dir_st_size server model v2 url target_file fs).
Proof.
  unfold head_probe. apply same_bind; [apply same_refl|].
  intros _ fs1. destruct (on_head server url) as [resp|e].
  - destruct (ok resp).
    + destruct (content_length_header resp) as [cl|]; [|apply same_refl].
      apply same_bind; [apply is_size_equal_same|]. intros eq fs2. apply same_refl.
    + apply same_bind; [apply same_when_print|]. intros _ fs2. apply same_refl.
  - destruct (caught_by_probe e); [|apply same_refl].
    apply same_bind; [apply same_when_print|]. intros _ fs2. apply same_refl.
Qed.

Lemma get_check_same model v1 v2 url target_file compared_size fs :
  (forall resp, on_get server url = Responds resp -> content_length_header resp <> None) ->
  same_but_for_prints
    (get_check py_int dir_st_size server model v1 url target_file compared_size fs)
    (get_check py_int dir_st_size server model v2 url target_file compared_size fs).
Proof.
  intros Hlen. unfold get_check. apply same_bind; [apply same_refl|].
  intros _ fs1. destruct (on_get server url) as [resp|e]; [|apply same_refl].
  specialize (Hlen resp eq_refl).
  destruct (negb (ok resp)); [apply same_refl|].
  apply same_bind; [apply same_refl|].
  intros found fs2. destruct (found && negb compared_size); [|apply same_refl].
  destruct (content_length_header resp) as [cl|]; [|contradiction].
  cbn [is_None]. rewrite !andb_false_r.
  apply same_bind; [apply is_size_equal_same|]. intros eq fs3. apply same_refl.
Qed.

Lemma download_file_same model destination v1 v2 dry_run nhr filepath url fs :
  (forall resp, on_get server url = Responds resp -> content_length_header resp <> None) ->
  same_but_for_prints
    (download_file py_int dir_st_size server model destination v1 dry_run nhr
       (filepath, url) fs)
    (download_file py_int dir_st_size server model destination v2 dry_run nhr
       (filepath, url) fs).
Proof.
  intros Hlen. unfold download_file. apply same_bind; [|intros d fs1; apply same_refl].
  unfold check. apply same_bind; [apply same_when_print|].
  intros _ fs1. apply same_bind; [apply same_refl|].
  intros found fs2. apply same_bind.
  - destruct (found && negb nhr); [apply head_probe_same | apply same_refl].
  - intros [|compared] fs3; [apply same_refl|]. apply get_check_same, Hlen.
Qed.

(** X13. [--verbose] only adds printed lines, as long as every GET response
    for a file of a selected model carries a Content-Length: the run then
    sends the same requests, performs the same file operations, leaves the
    same file system and ends the same way with and without it. *)
Theorem verbose_only_adds_lines
    (destination : Path)
    (no_sd15 no_sdxl no_upscalers no_checkpoints no_controlnet prefetch minimal
     no_head_request : bool) (fs : FS) :
  let models := if minimal then required_models catalog else resources.all_models catalog in
  (forall model filepath url resp,
      model ∈ selected no_sd15 no_sdxl no_upscalers no_checkpoints no_controlnet
                prefetch models ->
      (filepath, url) ∈ files model ->
      on_get server url = Responds resp ->
      content_length_header resp <> None) ->
  let loud := main py_int dir_st_size server catalog destination true false
                no_sd15 no_sdxl no_upscalers no_checkpoints no_controlnet prefetch
                minimal no_head_request fs in
  let quiet := main py_int dir_st_size server catalog destination false false
                 no_sd15 no_sdxl no_upscalers no_checkpoints no_controlnet prefetch
                 minimal no_head_request fs in
  actions (events loud) = actions (events quiet)
  /\ fs_after loud = fs_after quiet
  /\ result loud = result quiet.
Proof.
  intros models Hlen loud quiet. subst loud quiet. unfold main.
  apply same_bind; [apply same_refl|].
  intros _ fs1. cbn [orb]. fold models. rewrite !main_loop_selected.
  apply same_for_each. intros model Hmodel fs2.
  apply same_bind; [apply same_when_print|].
  intros _ fs3. unfold download. apply same_for_each.
  intros [filepath url] Hfile fs4. apply download_file_same.
  intros resp. apply (Hlen model filepath url resp Hmodel Hfile).
Qed.

(** *** The flags *)

(** X14. [download] called with [no_head_request] set sends no HEAD request
    at all, whether the files exist or not. *)
Theorem no_head_request_sends_no_probe
    (model : ModelResource) (destination : Path) (verbose dry_run : bool)
    (fs : FS) (u : string) :
  HeadRequest u ∉ events (download py_int dir_st_size server model destination verbose
                            dry_run true fs).
Proof.
  intros Hin.
  pose proof (download_honours_no_head_request py_int dir_st_size server model destination
                verbose dry_run fs) as Hall.
  rewrite Forall_forall in Hall. exact (Hall _ Hin u eq_refl).
Qed.

Lemma excluded_mono f1 f2 f3 f4 f5 f6 g1 g2 g3 g4 g5 g6 model :
  (f1 = true -> g1 = true) -> (f2 = true -> g2 = true) -> (f3 = true -> g3 = true) ->
  (f4 = true -> g4 = true) -> (f5 = true -> g5 = true) -> (g6 = true -> f6 = true) ->
  excluded f1 f2 f3 f4 f5 f6 model = true ->
  excluded g1 g2 g3 g4 g5 g6 model = true.
Proof.
  intros H1 H2 H3 H4 H5 H6. rewrite !excluded_spec. unfold exclusion_applies.
  intros [[? ?] | [[? ?] | [[? ?] | [[? ?] | [[? ?] | [? ?]]]]]]; auto 10.
  do 5 right. split; [assumption|]. destruct g6; [|reflexivity].
  rewrite H6 in *; [discriminate | reflexivity].
Qed.

(** X15. The exclusion flags are monotone: setting more of [no_sd15],
    [no_sdxl], [no_upscalers], [no_checkpoints], [no_controlnet], or
    dropping [prefetch], never adds a model; what is then selected is a
    sub-sequence of what was selected before. *)
Theorem more_exclusions_select_fewer
    (no_sd15 no_sdxl no_upscalers no_checkpoints no_controlnet prefetch : bool)
    (no_sd15' no_sdxl' no_upscalers' no_checkpoints' no_controlnet' prefetch' : bool)
    (models : list ModelResource) :
  (no_sd15 = true -> no_sd15' = true) ->
  (no_sdxl = true -> no_sdxl' = true) ->
  (no_upscalers = true -> no_upscalers' = true) ->
  (no_checkpoints = true -> no_checkpoints' = true) ->
  (no_controlnet = true -> no_controlnet' = true) ->
  (prefetch' = true -> prefetch = true) ->
  selected no_sd15' no_sdxl' no_upscalers' no_checkpoints' no_controlnet' prefetch' models
  `sublist_of`
  selected no_sd15 no_sdxl no_upscalers no_checkpoints no_controlnet prefetch models.
Proof.
  intros H1 H2 H3 H4 H5 H6.
  induction models as [|m rest IH]; cbn [selected]; [constructor|].
  destruct (excluded no_sd15 no_sdxl no_upscalers no_checkpoints no_controlnet prefetch m)
    eqn:E.
  - rewrite (excluded_mono _ _ _ _ _ _ _ _ _ _ _ _ m H1 H2 H3 H4 H5 H6 E). exact IH.
  - destruct (excluded no_sd15' no_sdxl' no_upscalers' no_checkpoints' no_controlnet'
                prefetch' m).
    + apply sublist_cons, IH.
    + apply sublist_skip, IH.
Qed.

End MoreScriptFacts.

(** ** The further scenarios, evaluated *)

(** Settles the side conditions on the directories above out/x.bin. *)
Ltac above_x_bin fs :=
  let q := fresh "q" in
  let d := fresh "d" in
  let Hq := fresh "Hq" in
  let Hpre := fresh "Hpre" in
  let Hfile := fresh "Hfile" in
  let Hlen := fresh "Hlen" in
  let k := fresh "k" in
  let Hk := fresh "Hk" in
  intros q d Hq Hpre Hfile;
  pose proof (prefix_length _ _ Hpre) as Hlen;
  destruct q as [|? [|? ?]]; [done| |cbn in Hlen; lia];
  destruct Hpre as [k Hk]; cbn in Hk; injection Hk as <- _;
  vm_compute in Hfile; discriminate.

(** out/x.bin is missing and the HEAD request would fail: it is not sent. *)
Lemma missing_file_is_downloaded_without_probe_witness :
  let server := server_of (Fails ClientConnectionError) (Responds (response (Some "3"))) in
  let o := download_file decimal 4096 server model_X ["out"] false false false
             (["x.bin"], url_x) ∅ in
  node_at ∅ (["out"] ++ ["x.bin"]) = None
  /\ events o = [GetRequest url_x; Print ("Downloading " +:+ url_x); Mkdir ["out"];
                 OpenWrite ["out"; "x.bin"]; ProgressBar "X" (Some 3);
                 WriteChunk ["out"; "x.bin"] ["001"; "002"]%byte; ProgressUpdate 2;
                 WriteChunk ["out"; "x.bin"] ["003"]%byte; ProgressUpdate 1]
  /\ fs_after o !! ["out"; "x.bin"] = Some (File ["001"; "002"; "003"]%byte)
  /\ result o = Return tt.
Proof.
  intros server o.
  assert (Hnone : node_at (∅ : FS) (["out"] ++ ["x.bin"]) = None)
    by (vm_compute; reflexivity).
  destruct (missing_file_is_downloaded_without_probe decimal 4096 server model_X ["out"]
              false false false ["x.bin"] url_x ∅ (response (Some "3"))
              Hnone eq_refl eq_refl) as (Hev & _ & _ & _ & Hreal).
  destruct Hreal as [Hfile Hres]; [reflexivity| | |reflexivity|].
  - above_x_bin (∅ : FS).
  - intros s [= <-]. vm_compute. eauto.
  - split; [exact Hnone|]. split; [exact Hev|]. split; assumption.
Defined.

(** The probe times out and the GET response declares the local size. *)
Lemma get_size_match_skips_without_writing_witness :
  let server := server_of (Fails ServerTimeoutError) (Responds (response (Some "100"))) in
  let o := download_file decimal 4096 server model_X ["out"] false false false
             (["x.bin"], url_x) (fs_with_x 100) in
  fs_after o = fs_with_x 100 /\ result o = Return tt.
Proof.
  intros server o.
  assert (Hnode : node_at (fs_with_x 100) (["out"] ++ ["x.bin"]) = Some (File (zeros 100)))
    by (vm_compute; reflexivity).
  assert (Hint : decimal "100" = Some (Z.of_nat (length (zeros 100))))
    by (vm_compute; reflexivity).
  assert (Hprobe : probe_gives_no_size false (on_head server url_x)).
  { right. right. left. reflexivity. }
  destruct (get_size_match_skips_without_writing decimal 4096 server model_X ["out"]
              false false false ["x.bin"] url_x (fs_with_x 100) (zeros 100)
              (response (Some "100")) "100" Hnode Hprobe eq_refl eq_refl eq_refl Hint)
    as (_ & _ & Hfs & Hres).
  split; assumption.
Defined.

(** The probe times out and the GET response declares another size. *)
Lemma get_size_mismatch_downloads_witness :
  let server := server_of (Fails ServerTimeoutError) (Responds (response (Some "3"))) in
  let o := download_file decimal 4096 server model_X ["out"] false false false
             (["x.bin"], url_x) (fs_with_x 100) in
  fs_after o !! ["out"; "x.bin"] = Some (File ["001"; "002"; "003"]%byte).
Proof.
  intros server o.
  assert (Hnode : node_at (fs_with_x 100) (["out"] ++ ["x.bin"]) = Some (File (zeros 100)))
    by (vm_compute; reflexivity).
  assert (Hne : 3 <> Z.of_nat (length (zeros 100))) by (vm_compute; discriminate).
  assert (Hprobe : probe_gives_no_size false (on_head server url_x)).
  { right. right. left. reflexivity. }
  destruct (get_size_mismatch_downloads decimal 4096 server model_X ["out"]
              false false false ["x.bin"] url_x (fs_with_x 100) (zeros 100)
              (response (Some "3")) "3" 3 Hnode Hprobe eq_refl eq_refl eq_refl eq_refl Hne)
    as (_ & _ & _ & Hreal).
  apply Hreal; [reflexivity|]. above_x_bin (fs_with_x 100).
Defined.

(** A refused connection on the HEAD request of an existing file. *)
Lemma other_probe_failure_is_not_recovered_witness :
  let server := server_of (Fails ClientConnectionError) (Responds (response (Some "3"))) in
  let o := download_file decimal 4096 server model_X ["out"] false false false
             (["x.bin"], url_x) (fs_with_x 100) in
  events o = [HeadRequest url_x]
  /\ fs_after o = fs_with_x 100
  /\ result o = Raise ClientConnectionError.
Proof.
  intros server o. subst o.
  assert (Hnode : node_at (fs_with_x 100) (["out"] ++ ["x.bin"]) = Some (File (zeros 100)))
    by (vm_compute; reflexivity).
  rewrite (other_probe_failure_is_not_recovered decimal 4096 server model_X ["out"]
             false false ["x.bin"] url_x (fs_with_x 100) (File (zeros 100))
             ClientConnectionError Hnode eq_refl);
    [repeat split | discriminate | discriminate].
Defined.

(** The one GET request of a run over [catalog_X] is for the file of
    [model_X]. *)
Lemma requests_only_for_selected_files_witness :
  let server := server_of (Fails ServerTimeoutError) (Responds (response (Some "3"))) in
  let o := main decimal 4096 server catalog_X ["out"] false false false false false false
             false false false false ∅ in
  GetRequest url_x ∈ events o
  /\ exists model filepath,
       model ∈ resources.all_models catalog_X
       /\ ~ exclusion_applies false false false false false false model
       /\ (filepath, url_x) ∈ files model.
Proof.
  intros server o.
  assert (Hin : GetRequest url_x ∈ events o) by by_compute.
  split; [exact Hin|].
  apply (requests_only_for_selected_files decimal 4096 server catalog_X ["out"]
           false false false false false false false false false false ∅ url_x).
  right. exact Hin.
Defined.

(** The GET request for the first model fails: the second model is not
    looked at. *)
Lemma exception_ends_the_run_witness :
  let server := server_of (Responds error_response) (Responds error_response) in
  let o := main_loop decimal 4096 server ([] ++ model_X :: [controlnet_15]) ["out"]
             true false false false false false false false false ∅ in
  events o = [Print (newline +:+ "X"); Print "Looking for out/x.bin"; GetRequest url_x]
  /\ result o = Raise ClientResponseError.
Proof.
  intros server o. subst o.
  destruct (exception_ends_the_run decimal 4096 server ["out"]
              true false false false false false false false false ClientResponseError)
    as [Hmodels _].
  rewrite (Hmodels [] [controlnet_15] model_X ∅);
    [split; reflexivity | reflexivity | reflexivity | vm_compute; reflexivity].
Defined.

(** A complete download of the three bytes of [body_x]. *)
Lemma progress_accounts_for_every_byte_witness :
  let o := fetch decimal model_X false url_x ["out"; "x.bin"] (response (Some "3")) ∅ in
  result o = Return tt
  /\ progress_total (events o) = 3
  /\ bytes_written (events o) = 3
  /\ ProgressBar "X" (Some 3) ∈ events o.
Proof.
  intros o.
  assert (Hres : result o = Return tt) by (vm_compute; reflexivity).
  destruct (progress_accounts_for_every_byte decimal model_X url_x ["out"; "x.bin"]
              (response (Some "3")) ∅ Hres) as (_ & Hprog & Hbytes & Hbar).
  repeat split; assumption.
Defined.

(** The body stream breaks after three bytes. *)
Lemma broken_stream_leaves_partial_file_witness :
  let o := fetch decimal model_X false url_x ["out"; "x.bin"] broken_response ∅ in
  result o = Raise ClientConnectionError
  /\ fs_after o !! ["out"; "x.bin"] = Some (File ["001"; "002"; "003"]%byte).
Proof.
  intros o.
  apply (broken_stream_leaves_partial_file decimal model_X url_x ["out"; "x.bin"]
           broken_response ∅).
  - reflexivity.
  - vm_compute. discriminate.
  - above_x_bin (∅ : FS).
  - intros s [= <-]. vm_compute. eauto.
Defined.


(** Downloading x.bin twice from a server that declares its three bytes. *)
Lemma second_download_is_skipped_witness :
  let server := server_of (Responds (response (Some "3"))) (Responds (response (Some "3"))) in
  let o1 := download_file decimal 4096 server model_X ["out"] false false false
              (["x.bin"], url_x) ∅ in
  let o2 := download_file decimal 4096 server model_X ["out"] false false false
              (["x.bin"], url_x) (fs_after o1) in
  result o1 = Return tt
  /\ events o2 = [HeadRequest url_x;
                  Print "X: Found - Local file size matches server's - skipping"]
  /\ fs_after o2 = fs_after o1
  /\ result o2 = Return tt.
Proof.
  intros server o1 o2.
  destruct (second_download_is_skipped decimal 4096 server model_X ["out"] false false
              false false ["x.bin"] url_x ∅ (response (Some "3")) (response (Some "3")) "3")
    as (Hres1 & _ & Hev2 & Hfs2 & Hres2).
  - vm_compute. reflexivity.
  - above_x_bin (∅ : FS).
  - reflexivity.
  - reflexivity.
  - reflexivity.
  - intros s [= <-]. vm_compute. eauto.
  - reflexivity.
  - reflexivity.
  - reflexivity.
  - vm_compute. reflexivity.
  - repeat split; assumption.
Defined.

(** A run over [catalog_X] with and without [--verbose]. *)
Lemma verbose_only_adds_lines_witness :
  let server := server_of (Fails ServerTimeoutError) (Responds (response (Some "3"))) in
  let loud := main decimal 4096 server catalog_X ["out"] true false false false false false
                false false false false ∅ in
  let quiet := main decimal 4096 server catalog_X ["out"] false false false false false false
                 false false false false ∅ in
  actions (events loud) = actions (events quiet)
  /\ fs_after loud = fs_after quiet
  /\ result loud = result quiet.
Proof.
  intros server loud quiet.
  apply (verbose_only_adds_lines decimal 4096 server catalog_X ["out"]
           false false false false false false false false ∅).
  intros model filepath url resp _ _ [= <-]. discriminate.
Defined.

(** [--no-sdxl --no-controlnet] against no flag at all, on four models. *)
Lemma more_exclusions_select_fewer_witness :
  let catalogue := [model_X; controlnet_15; checkpoint_15; checkpoint_xl] in
  selected false true false false true false catalogue = [model_X; checkpoint_15]
  /\ selected false false false false false false catalogue = catalogue
  /\ [model_X; checkpoint_15] `sublist_of` catalogue.
Proof.
  intros catalogue.
  split; [reflexivity|]. split; [reflexivity|].
  apply (more_exclusions_select_fewer false false false false false false
           false true false false true false catalogue); auto.
Defined.
